(** * X-buzz: configuration loader and Twitter client wrapper

    A shallow embedding of [src/config/env.ts], [src/lib/twitter/types.ts]
    and [src/lib/twitter/client.ts], together with the properties the
    specification states about them.

    Conventions of the embedding.
    - A JavaScript [number] is an integer in [Z]: the payload fields are
      counts and epoch seconds.  IEEE rounding and [NaN] are outside the
      model; up to the largest time value of a [Date], which [new Date(n)]
      clips at, integer products are exact in both.
    - An optional property ([p?: T], or a value that may be [undefined]) is an
      [option].
    - A function that may throw returns an [Outcome]; an [async] method is
      run to completion, a rejected promise under [await] being a throw.
    - [process.env] is a finite map from names to strings.
    - A JavaScript [Map] is an insertion-ordered association list, because
      [Map.prototype.values] enumerates in insertion order. *)

From Stdlib Require Import ZArith Lia Ascii String.
From stdpp Require Import base option strings list gmap.

Set Default Proof Using "Type".
Local Open Scope string_scope.
Local Open Scope Z_scope.

(** ** The JavaScript host *)

(** The result of reading the property [p] of an object, as the operators
    [in] and truthiness see it. *)
Inductive Property (A : Type) : Type :=
| NotIn                (* [!('p' in o)] *)
| Falsy                (* ['p' in o] and [!o.p] *)
| Truthy (a : A).      (* ['p' in o] and [o.p] is the object [a] *)
Arguments NotIn {A}.
Arguments Falsy {A}.
Arguments Truthy {A} a.

(** The [rateLimit] payload twitter-api-v2 attaches to its errors. *)
Module RateLimit.
Record t : Type := mk { limit : Z; remaining : Z; reset : Z }.
End RateLimit.

(** A thrown value ([unknown] in a [catch] clause).  Only what the code
    inspects is kept: whether it is an [Error] instance, its [message], and
    its [rateLimit] property. *)
Inductive JsValue : Type :=
| ErrorInstance (message : string) (rateLimit : Property RateLimit.t)
| OtherValue (shown : string) (rateLimit : Property RateLimit.t).

(** [new Error(message)] *)
Definition new_Error (message : string) : JsValue := ErrorInstance message NotIn.

Inductive Outcome (A : Type) : Type :=
| Returned (a : A)
| Threw (e : JsValue).
Arguments Returned {A} a.
Arguments Threw {A} e.

Definition bindO {A B} (c : Outcome A) (k : A -> Outcome B) : Outcome B :=
  match c with
  | Returned a => k a
  | Threw e => Threw e
  end.

Declare Scope outcome_scope.
Delimit Scope outcome_scope with outcome.
Notation "x <- c ;; k" := (bindO c (fun x => k))
  (at level 100, c at next level, right associativity) : outcome_scope.

(** Truthiness of the values the code tests. *)
Definition truthy_string (v : option string) : bool :=
  match v with
  | Some s => negb (String.eqb s "")
  | None => false
  end.

(** [v || d] on an optional string. *)
Definition or_string (v : option string) (d : string) : string :=
  if truthy_string v then default d v else d.

(** [v ?? d] on an optional string. *)
Definition nullish_string (v : option string) (d : string) : string :=
  match v with
  | Some s => s
  | None => d
  end.

(** [v || d] on an optional number: [undefined] and [0] are falsy. *)
Definition or_number (v : option Z) (d : Z) : Z :=
  match v with
  | Some n => if n =? 0 then d else n
  | None => d
  end.

(** [v || d] on an optional boolean. *)
Definition or_bool (v : option bool) (d : bool) : bool :=
  match v with
  | Some true => true
  | _ => d
  end.

(** [!!v] on an optional array or object: every array and every object is
    truthy. *)
Definition truthy_object {A} (v : option A) : bool :=
  match v with
  | Some _ => true
  | None => false
  end.

(** [v || d] on an optional array or object. *)
Definition or_object {A} (v : option A) (d : A) : A :=
  match v with
  | Some a => a
  | None => d
  end.

(** A [Date] object: its time value in milliseconds, or Invalid Date. *)
Inductive Date : Type :=
| TimeValue (ms : Z)
| InvalidDate.

(** The largest time value, 8.64e15 milliseconds either side of the epoch. *)
Definition maxTimeValue : Z := 8640000000000000.

(** TimeClip: a number is a time value when it is in range, and [NaN]
    otherwise. *)
Definition TimeClip (n : Z) : Date :=
  if Z.abs n <=? maxTimeValue then TimeValue n else InvalidDate.

(** ** [src/config/env.ts] *)

Module TwitterConfig.
Record t : Type := mk {
  apiKey : string;
  apiSecret : string;
  accessToken : string;
  accessTokenSecret : string;
  bearerToken : string;
}.
End TwitterConfig.

Module AppConfig.
Record anthropic_t : Type := mk_anthropic { apiKey : string }.
(* [environment] and [logLevel] are union types in the declaration, but
   the code only casts ([as]), so at run time they are plain strings. *)
Record app_t : Type := mk_app { environment : string; logLevel : string }.
Record t : Type := mk {
  twitter : TwitterConfig.t;
  anthropic : anthropic_t;
  app : app_t;
}.
End AppConfig.

Section Env.
(** [process.env], after dotenv's [config()] has run. *)
Variable env : gmap string string.

(** [function getEnvVar(name: string, required = true): string] *)
Definition getEnvVar (name : string) (required : option bool) : Outcome string :=
  let required := default true required in
  let value := env !! name in
  if required && negb (truthy_string value)
  then Threw (new_Error ("Missing required environment variable: " +:+ name))
  else Returned (nullish_string value "").

(** [export function loadConfig(): AppConfig].  The object literal is
    evaluated property by property, in source order. *)
Definition loadConfig : Outcome AppConfig.t :=
  (apiKey <- getEnvVar "TWITTER_API_KEY" None ;;
   apiSecret <- getEnvVar "TWITTER_API_SECRET" None ;;
   accessToken <- getEnvVar "TWITTER_ACCESS_TOKEN" None ;;
   accessTokenSecret <- getEnvVar "TWITTER_ACCESS_TOKEN_SECRET" None ;;
   bearerToken <- getEnvVar "TWITTER_BEARER_TOKEN" None ;;
   anthropicKey <- getEnvVar "ANTHROPIC_API_KEY" (Some false) ;;
   Returned
     {| AppConfig.twitter :=
          {| TwitterConfig.apiKey := apiKey;
             TwitterConfig.apiSecret := apiSecret;
             TwitterConfig.accessToken := accessToken;
             TwitterConfig.accessTokenSecret := accessTokenSecret;
             TwitterConfig.bearerToken := bearerToken |};
        AppConfig.anthropic := {| AppConfig.apiKey := anthropicKey |};
        AppConfig.app :=
          {| AppConfig.environment := or_string (env !! "NODE_ENV") "development";
             AppConfig.logLevel := or_string (env !! "LOG_LEVEL") "info" |} |})%outcome.
End Env.

(** The five required variables, in the order [loadConfig] reads them. *)
Definition requiredVars : list string :=
  [ "TWITTER_API_KEY"; "TWITTER_API_SECRET"; "TWITTER_ACCESS_TOKEN";
    "TWITTER_ACCESS_TOKEN_SECRET"; "TWITTER_BEARER_TOKEN" ].

(** A variable is usable when it is set to a non-empty string. *)
Definition isSet (env : gmap string string) (name : string) : bool :=
  truthy_string (env !! name).

(** The environment of the test "should use default values for optional
    variables". *)
Definition testEnv : gmap string string :=
  <["TWITTER_API_KEY" := "test-api-key"]>
  (<["TWITTER_API_SECRET" := "test-api-secret"]>
  (<["TWITTER_ACCESS_TOKEN" := "test-access-token"]>
  (<["TWITTER_ACCESS_TOKEN_SECRET" := "test-access-token-secret"]>
  (<["TWITTER_BEARER_TOKEN" := "test-bearer-token"]> ∅)))).

(** ** [src/lib/twitter/types.ts] *)

Module TweetMetrics.
Record t : Type := mk {
  likes : Z;
  retweets : Z;
  replies : Z;
  impressions : Z;
  quotes : Z;
  bookmarks : Z;
}.
End TweetMetrics.

Module MediaAttachment.
Record t : Type := mk {
  type : string;
  url : string;
  previewUrl : option string;
  width : option Z;
  height : option Z;
  durationMs : option Z;
}.
End MediaAttachment.

Module ReferencedTweet.
(* [type] is declared as a union of three literals; [mapTweet] fills it
   with a cast, so any string can occur. *)
Record t : Type := mk { type : string; id : string }.
End ReferencedTweet.

Module Tweet.
Record t : Type := mk {
  id : string;
  text : string;
  authorId : string;
  createdAt : Date;
  metrics : TweetMetrics.t;
  media : option (list MediaAttachment.t);
  referencedTweets : option (list ReferencedTweet.t);
}.
End Tweet.

Module TwitterUser.
Record t : Type := mk {
  id : string;
  username : string;
  displayName : string;
  description : string;
  profileImageUrl : string;
  followersCount : Z;
  followingCount : Z;
  tweetCount : Z;
  verified : bool;
  createdAt : Date;
}.
End TwitterUser.

Module RateLimitInfo.
Record t : Type := mk {
  endpoint : string;
  limit : Z;
  remaining : Z;
  reset : Date;
}.
End RateLimitInfo.

Module PaginatedResponse.
Record meta_t : Type := mk_meta {
  nextToken : option string;
  previousToken : option string;
  resultCount : Z;
}.
Record t (T : Type) : Type := mk { data : list T; meta : meta_t }.
Arguments mk {T} data meta.
Arguments data {T} _.
Arguments meta {T} _.
End PaginatedResponse.

(** ** The payloads of twitter-api-v2

    The package is an external dependency; these are the parts of its
    declarations ([TweetV2], [UserV2], [MediaObjectV2], the result and
    paginator shapes) that [client.ts] reads. *)

Module TweetPublicMetrics.
Record t : Type := mk {
  like_count : option Z;
  retweet_count : option Z;
  reply_count : option Z;
  impression_count : option Z;
  quote_count : option Z;
  bookmark_count : option Z;
}.
End TweetPublicMetrics.

Module ReferencedTweetV2.
Record t : Type := mk { type : string; id : string }.
End ReferencedTweetV2.

Module TweetAttachmentV2.
Record t : Type := mk { media_keys : option (list string) }.
End TweetAttachmentV2.

Module TweetV2.
Record t : Type := mk {
  id : string;
  text : string;
  author_id : option string;
  created_at : option string;
  public_metrics : option TweetPublicMetrics.t;
  attachments : option TweetAttachmentV2.t;
  referenced_tweets : option (list ReferencedTweetV2.t);
}.
End TweetV2.

Module UserPublicMetrics.
Record t : Type := mk {
  followers_count : option Z;
  following_count : option Z;
  tweet_count : option Z;
}.
End UserPublicMetrics.

Module UserV2.
Record t : Type := mk {
  id : string;
  name : string;
  username : string;
  description : option string;
  profile_image_url : option string;
  public_metrics : option UserPublicMetrics.t;
  verified : option bool;
  created_at : option string;
}.
End UserV2.

Module MediaObjectV2.
Record t : Type := mk {
  media_key : string;
  type : string;
  url : option string;
  preview_image_url : option string;
  width : option Z;
  height : option Z;
  duration_ms : option Z;
}.
End MediaObjectV2.

Module Includes.
Record t : Type := mk { media : option (list MediaObjectV2.t) }.
End Includes.

Module Meta.
Record t : Type := mk {
  next_token : option string;
  previous_token : option string;
  result_count : option Z;
}.
End Meta.

(** [UserV2Result]: what [v2.me], [v2.userByUsername] and [v2.user] resolve to. *)
Module UserV2Result.
Record t : Type := mk { data : option UserV2.t }.
End UserV2Result.

(** [TweetV2LookupResult]: what [v2.tweets] resolves to. *)
Module TweetV2LookupResult.
Record t : Type := mk { data : list TweetV2.t }.
End TweetV2LookupResult.

(** [TweetV2SingleResult]: what [v2.singleTweet] resolves to. *)
Module TweetV2SingleResult.
Record t : Type := mk { data : option TweetV2.t; includes : option Includes.t }.
End TweetV2SingleResult.

(** The paginators [v2.userTimeline] and [v2.search] resolve to: [data] is
    the page as received, which holds the posts under [data] again. *)
Module TweetPaginator.
Record page_t : Type := mk_page { tweets : option (list TweetV2.t) }.
Record t : Type := mk {
  data : option page_t;
  meta : option Meta.t;
  includes : option Includes.t;
}.
End TweetPaginator.

(** The request parameters [client.ts] passes. *)
Module UserParams.
Record t : Type := mk { user_fields : list string }.
End UserParams.

Module TimelineParams.
Record t : Type := mk {
  max_results : Z;
  pagination_token : option string;
  start_time : option string;
  end_time : option string;
  tweet_fields : list string;
  media_fields : list string;
  expansions : list string;
}.
End TimelineParams.

Module SingleTweetParams.
Record t : Type := mk {
  tweet_fields : list string;
  media_fields : list string;
  expansions : list string;
}.
End SingleTweetParams.

Module SearchParams.
Record t : Type := mk {
  max_results : Z;
  next_token : option string;
  tweet_fields : list string;
  media_fields : list string;
  expansions : list string;
}.
End SearchParams.

(** The argument of [new TwitterApi(...)]: a bearer token, or the four
    user-context tokens. *)
Inductive TwitterApi : Type :=
| TwitterApi_bearer (bearerToken : string)
| TwitterApi_tokens (appKey appSecret accessToken accessSecret : string).

(** [client.readOnly]: the same credentials behind the read-only interface. *)
Record TwitterApiReadOnly : Type := ReadOnly { readOnly_of : TwitterApi }.
Definition readOnly (c : TwitterApi) : TwitterApiReadOnly := ReadOnly c.

(** ** JavaScript [Map] with string keys *)

Section JsMap.
Context {V : Type}.

(** [m.set(k, v)]: an existing key keeps its place, a new key goes last. *)
Fixpoint Map_set (k : string) (v : V) (m : list (string * V)) : list (string * V) :=
  match m with
  | [] => [(k, v)]
  | (k', v') :: m' =>
      if String.eqb k' k then (k, v) :: m' else (k', v') :: Map_set k v m'
  end.

(** [m.get(k)] *)
Fixpoint Map_get (k : string) (m : list (string * V)) : option V :=
  match m with
  | [] => None
  | (k', v') :: m' => if String.eqb k' k then Some v' else Map_get k m'
  end.

(** [Array.from(m.values())] *)
Definition Map_values (m : list (string * V)) : list V := map snd m.

(** [Array.from(m.keys())] *)
Definition Map_keys (m : list (string * V)) : list string := map fst m.

(** [new Map(entries)] *)
Definition new_Map (entries : list (string * V)) : list (string * V) :=
  fold_left (fun m kv => Map_set (fst kv) (snd kv) m) entries [].
End JsMap.

(** ** The host and the library as seen from [client.ts]

    [World] is everything outside the process: the network and the clock.
    Every call into the library and every reading of the clock takes the
    world and gives it back, possibly changed. *)

Module Host.
Record t (World : Type) : Type := mk {
  (* [Date.parse]: [None] is [NaN] *)
  Date_parse : string -> option Z;
  (* [toISOString] of a valid time value *)
  Date_toISOString : Z -> string;
  (* [Date.now()] *)
  Date_now : World -> Z * World;
}.
Arguments Date_parse {World} _ _.
Arguments Date_toISOString {World} _ _.
Arguments Date_now {World} _ _.
End Host.

Module TwitterApiV2.
Record t (World : Type) : Type := mk {
  me : TwitterApi -> World -> Outcome UserV2Result.t * World;
  tweets : TwitterApiReadOnly -> list string ->
           World -> Outcome TweetV2LookupResult.t * World;
  userByUsername : TwitterApiReadOnly -> string -> UserParams.t ->
                   World -> Outcome UserV2Result.t * World;
  user : TwitterApiReadOnly -> string -> UserParams.t ->
         World -> Outcome UserV2Result.t * World;
  userTimeline : TwitterApiReadOnly -> string -> TimelineParams.t ->
                 World -> Outcome TweetPaginator.t * World;
  singleTweet : TwitterApiReadOnly -> string -> SingleTweetParams.t ->
                World -> Outcome TweetV2SingleResult.t * World;
  search : TwitterApiReadOnly -> string -> SearchParams.t ->
           World -> Outcome TweetPaginator.t * World;
}.
Arguments me {World} _ _ _.
Arguments tweets {World} _ _ _ _.
Arguments userByUsername {World} _ _ _ _ _.
Arguments user {World} _ _ _ _ _.
Arguments userTimeline {World} _ _ _ _ _.
Arguments singleTweet {World} _ _ _ _ _.
Arguments search {World} _ _ _ _ _.
End TwitterApiV2.

(** ** [src/lib/twitter/client.ts] *)

Module TwitterClientOptions.
Record t : Type := mk { config : TwitterConfig.t; authMethod : option string }.
End TwitterClientOptions.

Module TwitterClient.
(* [authMethod] has the declared type [AuthMethod], a union of three
   string literals; at run time it is whatever string the caller passed. *)
Record t : Type := mk {
  client : TwitterApi;
  readOnlyClient : TwitterApiReadOnly;
  rateLimits : list (string * RateLimitInfo.t);
  authMethod : string;
}.
End TwitterClient.

(** An argument of [console.error]. *)
Inductive LogArg : Type :=
| LogString (s : string)
| LogValue (v : JsValue).

(** [constructor(options: TwitterClientOptions)] *)
Definition constructor (options : TwitterClientOptions.t) : TwitterClient.t :=
  let config := TwitterClientOptions.config options in
  let authMethod := default "oauth2-app" (TwitterClientOptions.authMethod options) in
  let client :=
    if String.eqb authMethod "oauth2-app" then
      TwitterApi_bearer (TwitterConfig.bearerToken config)
    else if String.eqb authMethod "oauth1" then
      TwitterApi_tokens (TwitterConfig.apiKey config) (TwitterConfig.apiSecret config)
                        (TwitterConfig.accessToken config)
                        (TwitterConfig.accessTokenSecret config)
    else
      TwitterApi_bearer (TwitterConfig.bearerToken config) in
  {| TwitterClient.client := client;
     TwitterClient.readOnlyClient := readOnly client;
     TwitterClient.rateLimits := [];
     TwitterClient.authMethod := authMethod |}.

Definition userFields : list string :=
  [ "id"; "name"; "username"; "description"; "profile_image_url";
    "public_metrics"; "verified"; "created_at" ].
Definition tweetFields : list string :=
  [ "id"; "text"; "author_id"; "created_at"; "public_metrics"; "attachments";
    "referenced_tweets" ].
Definition mediaFields : list string :=
  [ "type"; "url"; "preview_image_url"; "width"; "height"; "duration_ms" ].
Definition tweetExpansions : list string :=
  [ "attachments.media_keys"; "referenced_tweets.id" ].

(** The options of [getUserTweets] and [searchTweets]. *)
Module UserTweetsOptions.
Record t : Type := mk {
  maxResults : option Z;
  paginationToken : option string;
  startTime : option Date;
  endTime : option Date;
}.
End UserTweetsOptions.

Module SearchOptions.
Record t : Type := mk {
  maxResults : option Z;
  paginationToken : option string;
}.
End SearchOptions.

(** The state a method runs in: the wrapper instance, the console, and the
    world. *)
Module State.
Record t (World : Type) : Type := mk {
  this : TwitterClient.t;
  console : list (list LogArg);
  world : World;
}.
Arguments mk {World} this console world.
Arguments this {World} _.
Arguments console {World} _.
Arguments world {World} _.
End State.

Declare Scope js_scope.
Delimit Scope js_scope with js.

Section Client.
Context {World : Type}.
Variable host : Host.t World.
Variable api : TwitterApiV2.t World.

(** A method body: it runs in a state, and returns or throws. *)
Definition M (A : Type) : Type := State.t World -> Outcome A * State.t World.

Definition ret {A} (a : A) : M A := fun s => (Returned a, s).

Definition bind {A B} (c : M A) (k : A -> M B) : M B :=
  fun s =>
    match c s with
    | (Returned a, s') => k a s'
    | (Threw e, s') => (Threw e, s')
    end.

Local Notation "x <- c ;; k" := (bind c (fun x => k))
  (at level 100, c at next level, right associativity) : js_scope.
Local Open Scope js_scope.

(** [try { body } catch (error) { handler }]: what the body did to the
    state before it threw stays done. *)
Definition try_catch {A} (body : M A) (handler : JsValue -> M A) : M A :=
  fun s =>
    match body s with
    | (Returned a, s') => (Returned a, s')
    | (Threw e, s') => handler e s'
    end.

(** A synchronous step that may throw and does not touch the state. *)
Definition lift {A} (o : Outcome A) : M A := fun s => (o, s).

Definition get_this : M TwitterClient.t := fun s => (Returned (State.this s), s).

(** [await call]: the call goes out into the world; a rejection throws. *)
Definition await {A} (call : World -> Outcome A * World) : M A :=
  fun s =>
    let '(o, w) := call (State.world s) in
    (o, State.mk (State.this s) (State.console s) w).

(** [console.error(...args)] *)
Definition console_error (args : list LogArg) : M unit :=
  fun s =>
    (Returned tt,
     State.mk (State.this s) (State.console s ++ [args]) (State.world s)).

(** [this.rateLimits.set(k, v)] *)
Definition rateLimits_set (k : string) (v : RateLimitInfo.t) : M unit :=
  fun s =>
    let this := State.this s in
    (Returned tt,
     State.mk
       {| TwitterClient.client := TwitterClient.client this;
          TwitterClient.readOnlyClient := TwitterClient.readOnlyClient this;
          TwitterClient.rateLimits := Map_set k v (TwitterClient.rateLimits this);
          TwitterClient.authMethod := TwitterClient.authMethod this |}
       (State.console s) (State.world s)).

(** [new Date()] *)
Definition new_Date : M Date :=
  fun s =>
    let '(t, w) := Host.Date_now host (State.world s) in
    (Returned (TimeValue t), State.mk (State.this s) (State.console s) w).

(** [new Date(s)] for a string [s] *)
Definition new_Date_of_string (s : string) : Date :=
  match Host.Date_parse host s with
  | Some t => TimeValue t
  | None => InvalidDate
  end.

(** [new Date(n)] for a number [n] *)
Definition new_Date_of_number (n : Z) : Date := TimeClip n.

(** [d.toISOString()]: a [RangeError] on Invalid Date. *)
Definition toISOString (d : Date) : Outcome string :=
  match d with
  | TimeValue t => Returned (Host.Date_toISOString host t)
  | InvalidDate => Threw (ErrorInstance "Invalid time value" NotIn)
  end.

(** [d?.toISOString()] *)
Definition optional_toISOString (d : option Date) : Outcome (option string) :=
  match d with
  | Some d => bindO (toISOString d) (fun s => Returned (Some s))
  | None => Returned None
  end.

(** [xs.map(f)] for a callback with effects: in order, first to last. *)
Fixpoint Array_map {A B} (f : A -> M B) (xs : list A) : M (list B) :=
  match xs with
  | [] => ret []
  | x :: xs' => y <- f x ;; ys <- Array_map f xs' ;; ret (y :: ys)
  end.

(** [[s ? new Date(s) : new Date()]] *)
Definition createdAt_of (created_at : option string) : M Date :=
  if truthy_string created_at
  then ret (new_Date_of_string (default "" created_at))
  else new_Date.

(** [private mapTweet(tweet: TweetV2, mediaMap: Map<string, unknown>): Tweet] *)
Definition mapTweet (tweet : TweetV2.t) (mediaMap : list (string * MediaObjectV2.t))
  : M Tweet.t :=
  let metrics := TweetV2.public_metrics tweet in
  createdAt <- createdAt_of (TweetV2.created_at tweet) ;;
  ret {| Tweet.id := TweetV2.id tweet;
         Tweet.text := TweetV2.text tweet;
         Tweet.authorId := or_string (TweetV2.author_id tweet) "";
         Tweet.createdAt := createdAt;
         Tweet.metrics :=
           {| TweetMetrics.likes :=
                or_number (metrics ≫= TweetPublicMetrics.like_count) 0;
              TweetMetrics.retweets :=
                or_number (metrics ≫= TweetPublicMetrics.retweet_count) 0;
              TweetMetrics.replies :=
                or_number (metrics ≫= TweetPublicMetrics.reply_count) 0;
              TweetMetrics.impressions :=
                or_number (metrics ≫= TweetPublicMetrics.impression_count) 0;
              TweetMetrics.quotes :=
                or_number (metrics ≫= TweetPublicMetrics.quote_count) 0;
              TweetMetrics.bookmarks :=
                or_number (metrics ≫= TweetPublicMetrics.bookmark_count) 0 |};
         (* the object literal has no [media] property *)
         Tweet.media := None;
         Tweet.referencedTweets :=
           (fun refs =>
              map (fun ref => {| ReferencedTweet.type := ReferencedTweetV2.type ref;
                                 ReferencedTweet.id := ReferencedTweetV2.id ref |})
                  refs) <$> TweetV2.referenced_tweets tweet |}.

(** [private mapUser(user: UserV2): TwitterUser] *)
Definition mapUser (user : UserV2.t) : M TwitterUser.t :=
  let metrics :=
    or_object (UserV2.public_metrics user)
              {| UserPublicMetrics.followers_count := None;
                 UserPublicMetrics.following_count := None;
                 UserPublicMetrics.tweet_count := None |} in
  createdAt <- createdAt_of (UserV2.created_at user) ;;
  ret {| TwitterUser.id := UserV2.id user;
         TwitterUser.username := UserV2.username user;
         TwitterUser.displayName := UserV2.name user;
         TwitterUser.description := or_string (UserV2.description user) "";
         TwitterUser.profileImageUrl := or_string (UserV2.profile_image_url user) "";
         TwitterUser.followersCount :=
           or_number (UserPublicMetrics.followers_count metrics) 0;
         TwitterUser.followingCount :=
           or_number (UserPublicMetrics.following_count metrics) 0;
         TwitterUser.tweetCount := or_number (UserPublicMetrics.tweet_count metrics) 0;
         TwitterUser.verified := or_bool (UserV2.verified user) false;
         TwitterUser.createdAt := createdAt |}.

(** [private handleError(error: unknown, context: string): void] *)
Definition handleError (error : JsValue) (context : string) : M unit :=
  match error with
  | ErrorInstance message rateLimit =>
      _ <- console_error [ LogString ("[TwitterClient." +:+ context +:+ "] Error:");
                           LogString message ] ;;
      match rateLimit with
      | Truthy rl =>
          rateLimits_set context
            {| RateLimitInfo.endpoint := context;
               RateLimitInfo.limit := RateLimit.limit rl;
               RateLimitInfo.remaining := RateLimit.remaining rl;
               RateLimitInfo.reset := new_Date_of_number (RateLimit.reset rl * 1000) |}
      | Falsy => ret tt
      | NotIn => ret tt
      end
  | OtherValue _ _ =>
      console_error [ LogString ("[TwitterClient." +:+ context +:+ "] Unknown error:");
                      LogValue error ]
  end.

(** [new Map(response.includes?.media?.map((m) => [m.media_key, m]) || [])] *)
Definition mediaMap_of (includes : option Includes.t) : list (string * MediaObjectV2.t) :=
  new_Map (or_object
             ((fun ms => map (fun m => (MediaObjectV2.media_key m, m)) ms)
                <$> (includes ≫= Includes.media))
             []).

(** [async verifyCredentials(): Promise<boolean>] *)
Definition verifyCredentials : M bool :=
  try_catch
    (this <- get_this ;;
     if String.eqb (TwitterClient.authMethod this) "oauth1" then
       me <- await (TwitterApiV2.me api (TwitterClient.client this)) ;;
       ret (truthy_object (UserV2Result.data me))
     else
       test <- await (TwitterApiV2.tweets api (TwitterClient.readOnlyClient this) ["1"]) ;;
       ret true)
    (fun error =>
       _ <- console_error [ LogString "Credential verification failed:"; LogValue error ] ;;
       ret false).

(** [async getUser(username: string): Promise<TwitterUser | null>] *)
Definition getUser (username : string) : M (option TwitterUser.t) :=
  try_catch
    (this <- get_this ;;
     response <- await (TwitterApiV2.userByUsername api
                          (TwitterClient.readOnlyClient this) username
                          {| UserParams.user_fields := userFields |}) ;;
     match UserV2Result.data response with
     | None => ret None
     | Some data => user <- mapUser data ;; ret (Some user)
     end)
    (fun error => _ <- handleError error "getUser" ;; ret None).

(** [async getUserById(userId: string): Promise<TwitterUser | null>] *)
Definition getUserById (userId : string) : M (option TwitterUser.t) :=
  try_catch
    (this <- get_this ;;
     response <- await (TwitterApiV2.user api
                          (TwitterClient.readOnlyClient this) userId
                          {| UserParams.user_fields := userFields |}) ;;
     match UserV2Result.data response with
     | None => ret None
     | Some data => user <- mapUser data ;; ret (Some user)
     end)
    (fun error => _ <- handleError error "getUserById" ;; ret None).

(** The parameter object [getUserTweets] passes to [v2.userTimeline]. *)
Definition timelineParams (options : UserTweetsOptions.t)
    (start_time end_time : option string) : TimelineParams.t :=
  {| TimelineParams.max_results := default 100 (UserTweetsOptions.maxResults options);
     TimelineParams.pagination_token := UserTweetsOptions.paginationToken options;
     TimelineParams.start_time := start_time;
     TimelineParams.end_time := end_time;
     TimelineParams.tweet_fields := tweetFields;
     TimelineParams.media_fields := mediaFields;
     TimelineParams.expansions := tweetExpansions |}.

(** The page both [getUserTweets] and [searchTweets] return from their
    [catch] clause. *)
Definition emptyPage : PaginatedResponse.t Tweet.t :=
  {| PaginatedResponse.data := [];
     PaginatedResponse.meta :=
       {| PaginatedResponse.nextToken := None;
          PaginatedResponse.previousToken := None;
          PaginatedResponse.resultCount := 0 |} |}.

(** [async getUserTweets(userId, options = {}): Promise<PaginatedResponse<Tweet>>] *)
Definition getUserTweets (userId : string) (options : UserTweetsOptions.t)
  : M (PaginatedResponse.t Tweet.t) :=
  try_catch
    (this <- get_this ;;
     start_time <- lift (optional_toISOString (UserTweetsOptions.startTime options)) ;;
     end_time <- lift (optional_toISOString (UserTweetsOptions.endTime options)) ;;
     response <- await (TwitterApiV2.userTimeline api
                          (TwitterClient.readOnlyClient this) userId
                          (timelineParams options start_time end_time)) ;;
     let tweets :=
       or_object (TweetPaginator.data response ≫= TweetPaginator.tweets) [] in
     let mediaMap := mediaMap_of (TweetPaginator.includes response) in
     data <- Array_map (fun tweet => mapTweet tweet mediaMap) tweets ;;
     ret {| PaginatedResponse.data := data;
            PaginatedResponse.meta :=
              {| PaginatedResponse.nextToken :=
                   TweetPaginator.meta response ≫= Meta.next_token;
                 PaginatedResponse.previousToken :=
                   TweetPaginator.meta response ≫= Meta.previous_token;
                 PaginatedResponse.resultCount :=
                   or_number (TweetPaginator.meta response ≫= Meta.result_count) 0 |} |})
    (fun error => _ <- handleError error "getUserTweets" ;; ret emptyPage).

(** [async getTweet(tweetId: string): Promise<Tweet | null>] *)
Definition getTweet (tweetId : string) : M (option Tweet.t) :=
  try_catch
    (this <- get_this ;;
     response <- await (TwitterApiV2.singleTweet api
                          (TwitterClient.readOnlyClient this) tweetId
                          {| SingleTweetParams.tweet_fields := tweetFields;
                             SingleTweetParams.media_fields := mediaFields;
                             SingleTweetParams.expansions := tweetExpansions |}) ;;
     match TweetV2SingleResult.data response with
     | None => ret None
     | Some data =>
         let mediaMap := mediaMap_of (TweetV2SingleResult.includes response) in
         tweet <- mapTweet data mediaMap ;;
         ret (Some tweet)
     end)
    (fun error => _ <- handleError error "getTweet" ;; ret None).

(** The parameter object [searchTweets] passes to [v2.search]. *)
Definition searchParams (options : SearchOptions.t) : SearchParams.t :=
  {| SearchParams.max_results := default 100 (SearchOptions.maxResults options);
     SearchParams.next_token := SearchOptions.paginationToken options;
     SearchParams.tweet_fields := tweetFields;
     SearchParams.media_fields := mediaFields;
     SearchParams.expansions := tweetExpansions |}.

(** [async searchTweets(query, options = {}): Promise<PaginatedResponse<Tweet>>] *)
Definition searchTweets (query : string) (options : SearchOptions.t)
  : M (PaginatedResponse.t Tweet.t) :=
  try_catch
    (this <- get_this ;;
     response <- await (TwitterApiV2.search api
                          (TwitterClient.readOnlyClient this) query
                          (searchParams options)) ;;
     let tweets :=
       or_object (TweetPaginator.data response ≫= TweetPaginator.tweets) [] in
     let mediaMap := mediaMap_of (TweetPaginator.includes response) in
     data <- Array_map (fun tweet => mapTweet tweet mediaMap) tweets ;;
     ret {| PaginatedResponse.data := data;
            PaginatedResponse.meta :=
              {| PaginatedResponse.nextToken :=
                   TweetPaginator.meta response ≫= Meta.next_token;
                 PaginatedResponse.previousToken := None;
                 PaginatedResponse.resultCount :=
                   or_number (TweetPaginator.meta response ≫= Meta.result_count) 0 |} |})
    (fun error => _ <- handleError error "searchTweets" ;; ret emptyPage).

(** [getRateLimitInfo(endpoint: string): RateLimitInfo | undefined] *)
Definition getRateLimitInfo (endpoint : string) : M (option RateLimitInfo.t) :=
  this <- get_this ;; ret (Map_get endpoint (TwitterClient.rateLimits this)).

(** [getAllRateLimits(): RateLimitInfo[]] *)
Definition getAllRateLimits : M (list RateLimitInfo.t) :=
  this <- get_this ;; ret (Map_values (TwitterClient.rateLimits this)).
End Client.

(** ** [src/index.ts] *)

(** [export function hello(): string] *)
Definition hello : string := "Hello from X-buzz!".

(** The two streams of the console. *)
Inductive Stream : Type :=
| Stdout      (* [console.log] *)
| Stderr.     (* [console.error] *)

(** What a run of the program leaves: the console calls in order, the code
    [process.exit] was called with if it was, and the world. *)
Module Process.
Record t (World : Type) : Type := mk {
  console : list (Stream * list LogArg);
  exitCode : option Z;
  world : World;
}.
Arguments mk {World} console exitCode world.
Arguments console {World} _.
Arguments exitCode {World} _.
Arguments world {World} _.
End Process.

(** The line feed that ends the second banner line. *)
Definition lineFeed : string := String (Ascii.ascii_of_nat 10) "".

Section Main.
Context {World : Type}.
Variable api : TwitterApiV2.t World.

(** The [try] block of [main], from the console after the banner: it
    returns or throws, with the console and the world as it left them.  The
    console calls of the wrapper arrive between those of [main], in order. *)
Definition main_try (env : gmap string string)
    (console : list (Stream * list LogArg)) (w : World)
  : Outcome unit * (list (Stream * list LogArg) * World) :=
  match loadConfig env with
  | Threw error => (Threw error, (console, w))
  | Returned config =>
      let console := (console ++ [(Stdout, [LogString "✅ Configuration loaded"])])%list in
      let twitterClient :=
        constructor {| TwitterClientOptions.config := AppConfig.twitter config;
                       TwitterClientOptions.authMethod := Some "oauth2-app" |} in
      let console :=
        (console ++ [(Stdout, [LogString "📡 Verifying Twitter API credentials..."])])%list in
      let '(isValid, s) := verifyCredentials api (State.mk twitterClient [] w) in
      let console :=
        (console ++ map (fun args => (Stderr, args)) (State.console s))%list in
      match isValid with
      | Threw error => (Threw error, (console, State.world s))
      | Returned isValid =>
          (Returned tt,
           ((console ++
              [(Stdout,
                [LogString
                   (if isValid
                    then "✅ Twitter API connection successful!"
                    else "❌ Twitter API connection failed. Please check your credentials.")])])%list,
            State.world s))
      end
  end.

(** [export async function main(): Promise<void>].  After [process.exit(1)]
    nothing more runs; the run ends there with exit code 1. *)
Definition main (env : gmap string string) (w : World) : Outcome unit * Process.t World :=
  let console :=
    [ (Stdout, [LogString "🚀 X-buzz - X AI Generator"]);
      (Stdout, [LogString ("==========================" +:+ lineFeed)]) ] in
  match main_try env console w with
  | (Returned _, (console, w')) => (Returned tt, Process.mk console None w')
  | (Threw error, (console, w')) =>
      let line :=
        match error with
        | ErrorInstance message _ => [LogString "❌ Error:"; LogString message]
        | OtherValue _ _ => [LogString "❌ Unknown error:"; LogValue error]
        end in
      (Returned tt, Process.mk (console ++ [(Stderr, line)]) (Some 1) w')
  end.
End Main.

(** ** A concrete host and the mocked library of the test suite *)

Module Fixture.
(** Days since 1970-01-01 of a civil date, proleptic Gregorian. *)
Definition days_from_civil (y m d : Z) : Z :=
  let y' := if m <=? 2 then y - 1 else y in
  let era := y' / 400 in
  let yoe := y' - era * 400 in
  let doy := (153 * (if 2 <? m then m - 3 else m + 9) + 2) / 5 + d - 1 in
  let doe := yoe * 365 + yoe / 4 - yoe / 100 + doy in
  era * 146097 + doe - 719468.

(** The civil date of a day number: year, month, day. *)
Definition civil_from_days (z : Z) : Z * Z * Z :=
  let z := z + 719468 in
  let era := z / 146097 in
  let doe := z - era * 146097 in
  let yoe := (doe - doe / 1460 + doe / 36524 - doe / 146096) / 365 in
  let doy := doe - (365 * yoe + yoe / 4 - yoe / 100) in
  let mp := (5 * doy + 2) / 153 in
  let d := doy - (153 * mp + 2) / 5 + 1 in
  let m := if mp <? 10 then mp + 3 else mp - 9 in
  ((yoe + era * 400 + (if m <=? 2 then 1 else 0), m), d).

Definition digit (c : ascii) : option Z :=
  let n := Z.of_N (Ascii.N_of_ascii c) in
  if (48 <=? n) && (n <=? 57) then Some (n - 48) else None.

Fixpoint number (cs : list ascii) (acc : Z) : option Z :=
  match cs with
  | [] => Some acc
  | c :: cs' => d ← digit c; number cs' (acc * 10 + d)
  end.

Definition in_range (lo hi n : Z) : option Z :=
  if (lo <=? n) && (n <=? hi) then Some n else None.

(** [Date.parse] on the form the platform sends, [YYYY-MM-DDTHH:mm:ss.sssZ].
    As in Node, a day number up to 31 that the month does not have runs
    over into the next month, and hour 24 stands for the end of the day
    when minutes, seconds and milliseconds are 0.  A string that is not of
    this form is [NaN] here; for those a real host accepts all the same
    (other ISO forms, the legacy formats) this host is the stricter one, and
    no fixture uses any. *)
Definition Date_parse (s : string) : option Z :=
  match String.list_ascii_of_string s with
  | [y1; y2; y3; y4; "-"; m1; m2; "-"; d1; d2; "T";
     h1; h2; ":"; n1; n2; ":"; s1; s2; "."; f1; f2; f3; "Z"]%char =>
      y ← number [y1; y2; y3; y4] 0;
      m ← number [m1; m2] 0 ≫= in_range 1 12;
      d ← number [d1; d2] 0 ≫= in_range 1 31;
      h ← number [h1; h2] 0 ≫= in_range 0 24;
      n ← number [n1; n2] 0 ≫= in_range 0 59;
      sec ← number [s1; s2] 0 ≫= in_range 0 59;
      f ← number [f1; f2; f3] 0;
      let days := days_from_civil y m d in
      if (h <? 24) || ((n =? 0) && (sec =? 0) && (f =? 0))
      then Some ((((days * 24 + h) * 60 + n) * 60 + sec) * 1000 + f)
      else None
  | _ => None
  end.

(** [n] in decimal, in at least [width] digits, for [0 <= n]. *)
Fixpoint decimal (width : nat) (n : Z) : string :=
  match width with
  | O => ""
  | S w => decimal w (n / 10) +:+
           String (Ascii.ascii_of_N (Z.to_N (48 + n mod 10))) ""
  end.

(** [toISOString] of a time value; years outside 0..9999 in the expanded
    form. *)
Definition Date_toISOString (t : Z) : string :=
  let day := t / 86400000 in
  let ms := t mod 86400000 in
  let '(y, m, d) := civil_from_days day in
  let year :=
    if (0 <=? y) && (y <=? 9999) then decimal 4 y
    else (if y <? 0 then "-" else "+") +:+ decimal 6 (Z.abs y) in
  year +:+ "-" +:+ decimal 2 m +:+ "-" +:+ decimal 2 d +:+ "T" +:+
  decimal 2 (ms / 3600000) +:+ ":" +:+ decimal 2 (ms / 60000 mod 60) +:+ ":" +:+
  decimal 2 (ms / 1000 mod 60) +:+ "." +:+ decimal 3 (ms mod 1000) +:+ "Z".

(** The world of the fixture is its clock, in milliseconds; a reading
    takes one millisecond. *)
Definition World : Type := Z.

Definition host : Host.t World :=
  {| Host.Date_parse := Date_parse;
     Host.Date_toISOString := Date_toISOString;
     Host.Date_now := fun w => (w, w + 1) |}.

(** The mocks of [vi.mock('twitter-api-v2', ...)] in the client tests. *)
Definition mockMe : UserV2Result.t :=
  (* the mock gives [id] and [username] only; [name] is not read *)
  {| UserV2Result.data :=
       Some {| UserV2.id := "123"; UserV2.name := ""; UserV2.username := "testuser";
               UserV2.description := None; UserV2.profile_image_url := None;
               UserV2.public_metrics := None; UserV2.verified := None;
               UserV2.created_at := None |} |}.

Definition mockUserByUsername : UserV2Result.t :=
  {| UserV2Result.data :=
       Some {| UserV2.id := "123"; UserV2.name := "Test User";
               UserV2.username := "testuser";
               UserV2.description := Some "Test description";
               UserV2.profile_image_url := Some "https://example.com/image.jpg";
               UserV2.public_metrics :=
                 Some {| UserPublicMetrics.followers_count := Some 1000;
                         UserPublicMetrics.following_count := Some 500;
                         UserPublicMetrics.tweet_count := Some 100 |};
               UserV2.verified := Some false;
               UserV2.created_at := Some "2020-01-01T00:00:00.000Z" |} |}.

Definition tweet1 (quotes bookmarks : option Z) : TweetV2.t :=
  {| TweetV2.id := "tweet1"; TweetV2.text := "Test tweet";
     TweetV2.author_id := Some "123";
     TweetV2.created_at := Some "2024-01-01T00:00:00.000Z";
     TweetV2.public_metrics :=
       Some {| TweetPublicMetrics.like_count := Some 100;
               TweetPublicMetrics.retweet_count := Some 50;
               TweetPublicMetrics.reply_count := Some 10;
               TweetPublicMetrics.impression_count := Some 5000;
               TweetPublicMetrics.quote_count := quotes;
               TweetPublicMetrics.bookmark_count := bookmarks |};
     TweetV2.attachments := None;
     TweetV2.referenced_tweets := None |}.

Definition tweet2 : TweetV2.t :=
  {| TweetV2.id := "tweet2"; TweetV2.text := "Search result tweet";
     TweetV2.author_id := Some "456";
     TweetV2.created_at := Some "2024-01-02T00:00:00.000Z";
     TweetV2.public_metrics :=
       Some {| TweetPublicMetrics.like_count := Some 200;
               TweetPublicMetrics.retweet_count := Some 100;
               TweetPublicMetrics.reply_count := None;
               TweetPublicMetrics.impression_count := None;
               TweetPublicMetrics.quote_count := None;
               TweetPublicMetrics.bookmark_count := None |};
     TweetV2.attachments := None;
     TweetV2.referenced_tweets := None |}.

Definition noMedia : option Includes.t := Some {| Includes.media := Some [] |}.

Definition mockUserTimeline : TweetPaginator.t :=
  {| TweetPaginator.data :=
       Some {| TweetPaginator.tweets := Some [tweet1 (Some 5) (Some 20)] |};
     TweetPaginator.meta :=
       Some {| Meta.next_token := Some "next123"; Meta.previous_token := None;
               Meta.result_count := Some 1 |};
     TweetPaginator.includes := noMedia |}.

Definition mockSingleTweet : TweetV2SingleResult.t :=
  {| TweetV2SingleResult.data := Some (tweet1 None None);
     TweetV2SingleResult.includes := noMedia |}.

Definition mockSearch : TweetPaginator.t :=
  {| TweetPaginator.data := Some {| TweetPaginator.tweets := Some [tweet2] |};
     TweetPaginator.meta :=
       Some {| Meta.next_token := None; Meta.previous_token := None;
               Meta.result_count := Some 1 |};
     TweetPaginator.includes := noMedia |}.

Definition mockTweets : TweetV2LookupResult.t := {| TweetV2LookupResult.data := [] |}.

Definition mockApi : TwitterApiV2.t World :=
  {| TwitterApiV2.me := fun _ w => (Returned mockMe, w);
     TwitterApiV2.tweets := fun _ _ w => (Returned mockTweets, w);
     TwitterApiV2.userByUsername := fun _ _ _ w => (Returned mockUserByUsername, w);
     TwitterApiV2.user := fun _ _ _ w => (Returned mockUserByUsername, w);
     TwitterApiV2.userTimeline := fun _ _ _ w => (Returned mockUserTimeline, w);
     TwitterApiV2.singleTweet := fun _ _ _ w => (Returned mockSingleTweet, w);
     TwitterApiV2.search := fun _ _ _ w => (Returned mockSearch, w) |}.

(** A backend on which every call is rejected with [e]. *)
Definition rejecting (e : JsValue) : TwitterApiV2.t World :=
  {| TwitterApiV2.me := fun _ w => (Threw e, w);
     TwitterApiV2.tweets := fun _ _ w => (Threw e, w);
     TwitterApiV2.userByUsername := fun _ _ _ w => (Threw e, w);
     TwitterApiV2.user := fun _ _ _ w => (Threw e, w);
     TwitterApiV2.userTimeline := fun _ _ _ w => (Threw e, w);
     TwitterApiV2.singleTweet := fun _ _ _ w => (Threw e, w);
     TwitterApiV2.search := fun _ _ _ w => (Threw e, w) |}.

(** The error of a rate-limited call: limit 15, none remaining. *)
Definition rateLimited : JsValue :=
  ErrorInstance "Request failed with code 429"
    (Truthy {| RateLimit.limit := 15; RateLimit.remaining := 0;
               RateLimit.reset := 1704067200 |}).

(** The same with a reset so far off that reset * 1000 is no time value. *)
Definition rateLimitedBeyondTime : JsValue :=
  ErrorInstance "Request failed with code 429"
    (Truthy {| RateLimit.limit := 15; RateLimit.remaining := 0;
               RateLimit.reset := 8640000000001 |}).

(** A post with one photo attached, and the response that includes it. *)
Definition photo : MediaObjectV2.t :=
  {| MediaObjectV2.media_key := "3_1"; MediaObjectV2.type := "photo";
     MediaObjectV2.url := Some "https://example.com/photo.jpg";
     MediaObjectV2.preview_image_url := None;
     MediaObjectV2.width := Some 1200; MediaObjectV2.height := Some 800;
     MediaObjectV2.duration_ms := None |}.

Definition photoTweet : TweetV2.t :=
  {| TweetV2.id := "tweet3"; TweetV2.text := "With a photo";
     TweetV2.author_id := Some "123";
     TweetV2.created_at := Some "2024-01-03T00:00:00.000Z";
     TweetV2.public_metrics := None;
     TweetV2.attachments := Some {| TweetAttachmentV2.media_keys := Some ["3_1"] |};
     TweetV2.referenced_tweets := None |}.

Definition photoIncludes : option Includes.t :=
  Some {| Includes.media := Some [photo] |}.

Definition photoApi : TwitterApiV2.t World :=
  {| TwitterApiV2.me := fun _ w => (Returned mockMe, w);
     TwitterApiV2.tweets := fun _ _ w => (Returned mockTweets, w);
     TwitterApiV2.userByUsername := fun _ _ _ w => (Returned mockUserByUsername, w);
     TwitterApiV2.user := fun _ _ _ w => (Returned mockUserByUsername, w);
     TwitterApiV2.userTimeline := fun _ _ _ w =>
       (Returned {| TweetPaginator.data :=
                      Some {| TweetPaginator.tweets := Some [photoTweet] |};
                    TweetPaginator.meta := None;
                    TweetPaginator.includes := photoIncludes |}, w);
     TwitterApiV2.singleTweet := fun _ _ _ w =>
       (Returned {| TweetV2SingleResult.data := Some photoTweet;
                    TweetV2SingleResult.includes := photoIncludes |}, w);
     TwitterApiV2.search := fun _ _ _ w =>
       (Returned {| TweetPaginator.data :=
                      Some {| TweetPaginator.tweets := Some [photoTweet] |};
                    TweetPaginator.meta := None;
                    TweetPaginator.includes := photoIncludes |}, w) |}.

(** A backend that finds nothing: lookups resolve without data, and pages
    come without posts although the platform announces a next page. *)
Definition morePages : TweetPaginator.t :=
  {| TweetPaginator.data := None;
     TweetPaginator.meta :=
       Some {| Meta.next_token := Some "more"; Meta.previous_token := Some "less";
               Meta.result_count := None |};
     TweetPaginator.includes := None |}.

Definition notFoundApi : TwitterApiV2.t World :=
  {| TwitterApiV2.me := fun _ w => (Returned {| UserV2Result.data := None |}, w);
     TwitterApiV2.tweets := fun _ _ w => (Returned mockTweets, w);
     TwitterApiV2.userByUsername := fun _ _ _ w =>
       (Returned {| UserV2Result.data := None |}, w);
     TwitterApiV2.user := fun _ _ _ w => (Returned {| UserV2Result.data := None |}, w);
     TwitterApiV2.userTimeline := fun _ _ _ w => (Returned morePages, w);
     TwitterApiV2.singleTweet := fun _ _ _ w =>
       (Returned {| TweetV2SingleResult.data := None;
                    TweetV2SingleResult.includes := None |}, w);
     TwitterApiV2.search := fun _ _ _ w => (Returned morePages, w) |}.

(** A post whose creation timestamp does not parse. *)
Definition undatedTweet : TweetV2.t :=
  {| TweetV2.id := "tweet4"; TweetV2.text := "When?";
     TweetV2.author_id := Some "123";
     TweetV2.created_at := Some "not a date";
     TweetV2.public_metrics := None;
     TweetV2.attachments := None;
     TweetV2.referenced_tweets := None |}.

(** A post and a profile with a negative counter. *)
Definition negativeTweet : TweetV2.t :=
  {| TweetV2.id := "tweet5"; TweetV2.text := "Disliked";
     TweetV2.author_id := Some "123";
     TweetV2.created_at := Some "2024-01-05T00:00:00.000Z";
     TweetV2.public_metrics :=
       Some {| TweetPublicMetrics.like_count := Some (-5);
               TweetPublicMetrics.retweet_count := None;
               TweetPublicMetrics.reply_count := None;
               TweetPublicMetrics.impression_count := None;
               TweetPublicMetrics.quote_count := None;
               TweetPublicMetrics.bookmark_count := None |};
     TweetV2.attachments := None;
     TweetV2.referenced_tweets := None |}.

Definition negativeUser : UserV2.t :=
  {| UserV2.id := "9"; UserV2.name := "Nobody"; UserV2.username := "nobody";
     UserV2.description := None; UserV2.profile_image_url := None;
     UserV2.public_metrics :=
       Some {| UserPublicMetrics.followers_count := Some (-1);
               UserPublicMetrics.following_count := None;
               UserPublicMetrics.tweet_count := None |};
     UserV2.verified := None;
     UserV2.created_at := None |}.

(** A post that replies to one post and refers to another under a kind
    outside the three known ones. *)
Definition replyTweet : TweetV2.t :=
  {| TweetV2.id := "tweet6"; TweetV2.text := "Re";
     TweetV2.author_id := None;
     TweetV2.created_at := None;
     TweetV2.public_metrics :=
       Some {| TweetPublicMetrics.like_count := Some 7;
               TweetPublicMetrics.retweet_count := None;
               TweetPublicMetrics.reply_count := Some 0;
               TweetPublicMetrics.impression_count := None;
               TweetPublicMetrics.quote_count := None;
               TweetPublicMetrics.bookmark_count := None |};
     TweetV2.attachments := None;
     TweetV2.referenced_tweets :=
       Some [ {| ReferencedTweetV2.type := "replied_to"; ReferencedTweetV2.id := "tweet1" |};
              {| ReferencedTweetV2.type := "mentioned"; ReferencedTweetV2.id := "tweet2" |} ] |}.

Definition mockConfig : TwitterConfig.t :=
  {| TwitterConfig.apiKey := "test-api-key";
     TwitterConfig.apiSecret := "test-api-secret";
     TwitterConfig.accessToken := "test-access-token";
     TwitterConfig.accessTokenSecret := "test-access-token-secret";
     TwitterConfig.bearerToken := "test-bearer-token" |}.

(** A fresh wrapper, an empty console, and the clock at [now]. *)
Definition start (authMethod : option string) (now : Z) : State.t World :=
  State.mk
    (constructor {| TwitterClientOptions.config := mockConfig;
                    TwitterClientOptions.authMethod := authMethod |})
    [] now.
End Fixture.

(** ** Vocabulary of the properties *)

(** The value of a call that returned. *)
Definition returned {A} (o : Outcome A) : option A :=
  match o with
  | Returned a => Some a
  | Threw _ => None
  end.

(** The message of a thrown [Error]. *)
Definition thrownMessage {A} (o : Outcome A) : option string :=
  match o with
  | Threw (ErrorInstance message _) => Some message
  | _ => None
  end.

(** [message.includes(name)] *)
Definition mentions (message name : string) : bool :=
  match String.index 0 name message with
  | Some _ => true
  | None => false
  end.

(** The first required variable, in reading order, that is not usable. *)
Definition firstMissing (env : gmap string string) : option string :=
  List.find (fun name => negb (isSet env name)) requiredVars.

(** The error [getEnvVar] throws for [name]. *)
Definition missingError (name : string) : JsValue :=
  new_Error ("Missing required environment variable: " +:+ name).

(** The values the declaration of [AppConfig] lists for [environment] and
    [logLevel]. *)
Definition environmentValues : list string := [ "development"; "production"; "test" ].
Definition logLevelValues : list string := [ "debug"; "info"; "warn"; "error" ].

(** All five required variables are usable. *)
Definition allRequiredSet (env : gmap string string) : bool :=
  forallb (isSet env) requiredVars.

(** An optional number that is absent, or present and not negative. *)
Definition absentOrNonNegative (v : option Z) : Prop :=
  match v with
  | Some n => 0 <= n
  | None => True
  end.

(** The snapshot [handleError] stores for a rate-limit payload. *)
Definition snapshotOf (context : string) (rl : RateLimit.t) : RateLimitInfo.t :=
  {| RateLimitInfo.endpoint := context;
     RateLimitInfo.limit := RateLimit.limit rl;
     RateLimitInfo.remaining := RateLimit.remaining rl;
     RateLimitInfo.reset := TimeClip (RateLimit.reset rl * 1000) |}.

(** A thrown value [handleError] takes a snapshot from: an [Error] instance
    whose [rateLimit] is a payload. *)
Definition rateLimitOf (e : JsValue) : option RateLimit.t :=
  match e with
  | ErrorInstance _ (Truthy rl) => Some rl
  | _ => None
  end.

Section StateVocabulary.
Context {World : Type}.

Definition rateLimitsOf (s : State.t World) : list (string * RateLimitInfo.t) :=
  TwitterClient.rateLimits (State.this s).

(** The state after an awaited call came back with world [w]. *)
Definition withWorld (s : State.t World) (w : World) : State.t World :=
  State.mk (State.this s) (State.console s) w.

(** A run leaves the wrapper instance and the console as they were. *)
Definition sameInstance (s s' : State.t World) : Prop :=
  State.this s' = State.this s /\ State.console s' = State.console s.

(** A method body that always returns and touches neither the instance
    nor the console. *)
Definition quiet {A} (m : State.t World -> Outcome A * State.t World) : Prop :=
  forall s, exists a s', m s = (Returned a, s') /\ sameInstance s s'.

(** A run logged exactly one more line. *)
Definition loggedOne (s s' : State.t World) : Prop :=
  exists line, State.console s' = (State.console s ++ [line])%list.

(** What a failure of the operation named [context] with the thrown value
    [e] leaves behind, from [before] to [after]. *)
Definition failureRecorded (context : string) (e : JsValue)
    (before after : State.t World) : Prop :=
  loggedOne before after /\
  match rateLimitOf e with
  | Some rl =>
      rateLimitsOf after = Map_set context (snapshotOf context rl) (rateLimitsOf before) /\
      Map_get context (rateLimitsOf after) = Some (snapshotOf context rl) /\
      (forall other, other <> context ->
         Map_get other (rateLimitsOf after) = Map_get other (rateLimitsOf before)) /\
      (NoDup (Map_keys (rateLimitsOf before)) -> NoDup (Map_keys (rateLimitsOf after)))
  | None => rateLimitsOf after = rateLimitsOf before
  end.
End StateVocabulary.

(** The six asynchronous operations of the wrapper, as calls. *)
Inductive Operation : Type :=
| VerifyCredentials
| GetUser (username : string)
| GetUserById (userId : string)
| GetUserTweets (userId : string) (options : UserTweetsOptions.t)
| GetTweet (tweetId : string)
| SearchTweets (query : string) (options : SearchOptions.t).

(** What an operation resolves to. *)
Inductive Result : Type :=
| Verified (ok : bool)
| User (user : option TwitterUser.t)
| Post (tweet : option Tweet.t)
| Page (page : PaginatedResponse.t Tweet.t).

(** The name an operation passes to [handleError]; [verifyCredentials]
    passes none, its own name stands here. *)
Definition contextOf (op : Operation) : string :=
  match op with
  | VerifyCredentials => "verifyCredentials"
  | GetUser _ => "getUser"
  | GetUserById _ => "getUserById"
  | GetUserTweets _ _ => "getUserTweets"
  | GetTweet _ => "getTweet"
  | SearchTweets _ _ => "searchTweets"
  end.

(** The documented result of a failed operation: [false], [null], or a
    page with no posts and [resultCount] 0. *)
Definition failureResult (op : Operation) : Result :=
  match op with
  | VerifyCredentials => Verified false
  | GetUser _ | GetUserById _ => User None
  | GetTweet _ => Post None
  | GetUserTweets _ _ | SearchTweets _ _ =>
      Page {| PaginatedResponse.data := [];
              PaginatedResponse.meta :=
                {| PaginatedResponse.nextToken := None;
                   PaginatedResponse.previousToken := None;
                   PaginatedResponse.resultCount := 0 |} |}
  end.

(** Does the operation go through [handleError] when it fails? *)
Definition usesHandleError (op : Operation) : bool :=
  match op with
  | VerifyCredentials => false
  | _ => true
  end.

Definition tagged {A W} (tag : A -> Result) (r : Outcome A * W) : Outcome Result * W :=
  match r with
  | (Returned a, s) => (Returned (tag a), s)
  | (Threw e, s) => (Threw e, s)
  end.

(** What a call into the library did: it resolved, or it was rejected with
    a thrown value. *)
Definition rejection {A W} (r : Outcome A * W) : option JsValue :=
  match r with
  | (Threw e, _) => Some e
  | (Returned _, _) => None
  end.

Section Operations.
Context {World : Type}.
Variable host : Host.t World.
Variable api : TwitterApiV2.t World.

(** What [getTweet] does with a response. *)
Definition tweetResult (response : TweetV2SingleResult.t) : M (option Tweet.t) :=
  match TweetV2SingleResult.data response with
  | None => ret None
  | Some data =>
      bind (mapTweet host data (mediaMap_of (TweetV2SingleResult.includes response)))
           (fun tweet => ret (Some tweet))
  end.

(** What [getUserTweets] ([previous] true) and [searchTweets] ([previous]
    false) do with a page. *)
Definition pageResult (previous : bool) (response : TweetPaginator.t)
  : M (PaginatedResponse.t Tweet.t) :=
  bind (Array_map
          (fun tweet => mapTweet host tweet (mediaMap_of (TweetPaginator.includes response)))
          (or_object (TweetPaginator.data response ≫= TweetPaginator.tweets) []))
       (fun data =>
          ret {| PaginatedResponse.data := data;
                 PaginatedResponse.meta :=
                   {| PaginatedResponse.nextToken :=
                        TweetPaginator.meta response ≫= Meta.next_token;
                      PaginatedResponse.previousToken :=
                        if previous
                        then TweetPaginator.meta response ≫= Meta.previous_token
                        else None;
                      PaginatedResponse.resultCount :=
                        or_number (TweetPaginator.meta response ≫= Meta.result_count) 0 |} |}).

(** Run an operation in a state. *)
Definition run (op : Operation) (s : State.t World) : Outcome Result * State.t World :=
  match op with
  | VerifyCredentials => tagged Verified (verifyCredentials api s)
  | GetUser username => tagged User (getUser host api username s)
  | GetUserById userId => tagged User (getUserById host api userId s)
  | GetUserTweets userId options => tagged Page (getUserTweets host api userId options s)
  | GetTweet tweetId => tagged Post (getTweet host api tweetId s)
  | SearchTweets query options => tagged Page (searchTweets host api query options s)
  end.

(** The value the underlying client throws during an operation started in
    [s], if it throws: the outcome of the one library call the operation
    makes.  [getUserTweets] makes no call when a time bound cannot be
    formatted. *)
Definition clientError (op : Operation) (s : State.t World) : option JsValue :=
  let this := State.this s in
  let ro := TwitterClient.readOnlyClient this in
  let w := State.world s in
  match op with
  | VerifyCredentials =>
      if String.eqb (TwitterClient.authMethod this) "oauth1"
      then rejection (TwitterApiV2.me api (TwitterClient.client this) w)
      else rejection (TwitterApiV2.tweets api ro ["1"] w)
  | GetUser username =>
      rejection (TwitterApiV2.userByUsername api ro username
                   {| UserParams.user_fields := userFields |} w)
  | GetUserById userId =>
      rejection (TwitterApiV2.user api ro userId
                   {| UserParams.user_fields := userFields |} w)
  | GetUserTweets userId options =>
      match optional_toISOString host (UserTweetsOptions.startTime options),
            optional_toISOString host (UserTweetsOptions.endTime options) with
      | Returned start_time, Returned end_time =>
          rejection (TwitterApiV2.userTimeline api ro userId
                       (timelineParams options start_time end_time) w)
      | _, _ => None
      end
  | GetTweet tweetId =>
      rejection (TwitterApiV2.singleTweet api ro tweetId
                   {| SingleTweetParams.tweet_fields := tweetFields;
                      SingleTweetParams.media_fields := mediaFields;
                      SingleTweetParams.expansions := tweetExpansions |} w)
  | SearchTweets query options =>
      rejection (TwitterApiV2.search api ro query (searchParams options) w)
  end.

(** The two queries see the same rate limits in [s] and in [s']. *)
Definition sameRateLimitQueries (s s' : State.t World) : Prop :=
  (forall endpoint,
      fst (getRateLimitInfo endpoint s') = fst (getRateLimitInfo endpoint s)) /\
  fst (getAllRateLimits s') = fst (getAllRateLimits s).
End Operations.

(** A mapped post that carries the identity of a raw post: id and text as
    they are, the author id or the empty string. *)
Definition sameTweet (raw : TweetV2.t) (t : Tweet.t) : Prop :=
  Tweet.id t = TweetV2.id raw /\
  Tweet.text t = TweetV2.text raw /\
  Tweet.authorId t = default "" (TweetV2.author_id raw).

(** The same for a profile: id, handle and display name as they are. *)
Definition sameUser (raw : UserV2.t) (u : TwitterUser.t) : Prop :=
  TwitterUser.id u = UserV2.id raw /\
  TwitterUser.username u = UserV2.username raw /\
  TwitterUser.displayName u = UserV2.name raw.

(** The eight variables [loadConfig] reads. *)
Definition configVars : list string :=
  (requiredVars ++ [ "ANTHROPIC_API_KEY"; "NODE_ENV"; "LOG_LEVEL" ])%list.

(** The names the five reporting operations pass to [handleError]. *)
Definition handledNames : list string :=
  [ "getUser"; "getUserById"; "getUserTweets"; "getTweet"; "searchTweets" ].

(** A rate-limit map in which every name has one entry at most, every entry
    sits under its own [endpoint], and every name is that of a reporting
    operation. *)
Definition wellKeyed (m : list (string * RateLimitInfo.t)) : Prop :=
  NoDup (Map_keys m) /\
  Forall (fun kv => RateLimitInfo.endpoint (snd kv) = fst kv /\ fst kv ∈ handledNames) m.

(** The instance with another rate-limit map. *)
Definition withRateLimits (this : TwitterClient.t)
    (m : list (string * RateLimitInfo.t)) : TwitterClient.t :=
  {| TwitterClient.client := TwitterClient.client this;
     TwitterClient.readOnlyClient := TwitterClient.readOnlyClient this;
     TwitterClient.rateLimits := m;
     TwitterClient.authMethod := TwitterClient.authMethod this |}.

(** The line [handleError] logs. *)
Definition handleErrorLine (context : string) (e : JsValue) : list LogArg :=
  match e with
  | ErrorInstance message _ =>
      [ LogString ("[TwitterClient." +:+ context +:+ "] Error:"); LogString message ]
  | OtherValue _ _ =>
      [ LogString ("[TwitterClient." +:+ context +:+ "] Unknown error:"); LogValue e ]
  end.

(** The line a failed operation logs. *)
Definition failureLine (op : Operation) (e : JsValue) : list LogArg :=
  if usesHandleError op
  then handleErrorLine (contextOf op) e
  else [ LogString "Credential verification failed:"; LogValue e ].

(** How a call into the library ended, and the world it left. *)
Definition ending {A W} (r : Outcome A * W) : option JsValue * W :=
  (rejection r, snd r).

(** The banner [main] prints first. *)
Definition banner : list (Stream * list LogArg) :=
  [ (Stdout, [LogString "🚀 X-buzz - X AI Generator"]);
    (Stdout, [LogString ("==========================" +:+ lineFeed)]) ].

Section Sequences.
Context {World : Type}.
Variable host : Host.t World.
Variable api : TwitterApiV2.t World.

(** The state [handleError] leaves. *)
Definition handled (context : string) (e : JsValue) (s : State.t World) : State.t World :=
  State.mk
    (withRateLimits (State.this s)
       (match rateLimitOf e with
        | Some rl => Map_set context (snapshotOf context rl) (rateLimitsOf s)
        | None => rateLimitsOf s
        end))
    (State.console s ++ [handleErrorLine context e])
    (State.world s).

(** The state a failed operation leaves, from the state its library call
    left. *)
Definition failed (op : Operation) (e : JsValue) (s : State.t World) : State.t World :=
  if usesHandleError op
  then handled (contextOf op) e s
  else State.mk (State.this s) (State.console s ++ [failureLine op e]) (State.world s).

(** The one library call of an operation started in [s]: how it ended and
    the world it left, or [None] when the operation makes no call. *)
Definition clientCall (op : Operation) (s : State.t World) : option (option JsValue * World) :=
  let this := State.this s in
  let ro := TwitterClient.readOnlyClient this in
  let w := State.world s in
  match op with
  | VerifyCredentials =>
      if String.eqb (TwitterClient.authMethod this) "oauth1"
      then Some (ending (TwitterApiV2.me api (TwitterClient.client this) w))
      else Some (ending (TwitterApiV2.tweets api ro ["1"] w))
  | GetUser username =>
      Some (ending (TwitterApiV2.userByUsername api ro username
                      {| UserParams.user_fields := userFields |} w))
  | GetUserById userId =>
      Some (ending (TwitterApiV2.user api ro userId
                      {| UserParams.user_fields := userFields |} w))
  | GetUserTweets userId options =>
      match optional_toISOString host (UserTweetsOptions.startTime options),
            optional_toISOString host (UserTweetsOptions.endTime options) with
      | Returned start_time, Returned end_time =>
          Some (ending (TwitterApiV2.userTimeline api ro userId
                          (timelineParams options start_time end_time) w))
      | _, _ => None
      end
  | GetTweet tweetId =>
      Some (ending (TwitterApiV2.singleTweet api ro tweetId
                      {| SingleTweetParams.tweet_fields := tweetFields;
                         SingleTweetParams.media_fields := mediaFields;
                         SingleTweetParams.expansions := tweetExpansions |} w))
  | SearchTweets query options =>
      Some (ending (TwitterApiV2.search api ro query (searchParams options) w))
  end.

(** Run operations one after the other; the state left is the one after
    the last. *)
Fixpoint runAll (ops : list Operation) (s : State.t World) : State.t World :=
  match ops with
  | [] => s
  | op :: ops' => runAll ops' (snd (run host api op s))
  end.
End Sequences.

(** ** Properties of the configuration loader *)

Lemma getEnvVar_required env name :
  getEnvVar env name None =
  if isSet env name then Returned (nullish_string (env !! name) "")
  else Threw (missingError name).
Proof.
  unfold getEnvVar, isSet. simpl.
  destruct (truthy_string (env !! name)); reflexivity.
Qed.

Lemma getEnvVar_optional env name :
  getEnvVar env name (Some false) = Returned (nullish_string (env !! name) "").
Proof. reflexivity. Qed.

Lemma or_string_unset d : or_string None d = d.
Proof. reflexivity. Qed.

Lemma or_string_nonempty s d : s <> "" -> or_string (Some s) d = s.
Proof.
  intros Hs. unfold or_string, truthy_string.
  destruct (String.eqb_spec s ""); [contradiction | reflexivity].
Qed.

Lemma loadConfig_firstMissing env name :
  firstMissing env = Some name -> loadConfig env = Threw (missingError name).
Proof.
  unfold firstMissing, requiredVars, loadConfig. simpl.
  rewrite !getEnvVar_required.
  repeat match goal with
         | |- context [isSet env ?v] => destruct (isSet env v); simpl
         end; congruence.
Qed.

Lemma firstMissing_exists env name :
  name ∈ requiredVars -> isSet env name = false ->
  exists first, firstMissing env = Some first /\ first ∈ requiredVars /\
                isSet env first = false.
Proof.
  intros Hin Hunset. unfold firstMissing.
  destruct (List.find _ requiredVars) as [first|] eqn:Hfind.
  - apply List.find_some in Hfind as [Hin' Hneg].
    exists first. split; [reflexivity|]. split.
    + by apply list_elem_of_In.
    + by apply negb_true_iff.
  - exfalso. apply list_elem_of_In in Hin.
    pose proof (List.find_none _ _ Hfind _ Hin) as Hn. simpl in Hn.
    rewrite Hunset in Hn. discriminate.
Qed.

Lemma firstMissing_split env name before after :
  requiredVars = (before ++ name :: after)%list ->
  forallb (isSet env) before = true ->
  isSet env name = false ->
  firstMissing env = Some name.
Proof.
  unfold firstMissing. intros -> Hbefore Hname.
  induction before as [|v before IH]; simpl in *.
  - by rewrite Hname.
  - apply andb_true_iff in Hbefore as [-> Hbefore]. simpl. by apply IH.
Qed.

(** C8, as the code has it.  [loadConfig] reads the five required variables
    in order and stops at the first one that is missing or empty: the error
    it throws names that one.  So whenever some required variable is
    missing or empty, [loadConfig] throws an error naming a missing required
    variable, and it names a given variable when every required variable
    read before it is usable. *)
Theorem loadConfig_names_first_missing (env : gmap string string) (name : string) :
  name ∈ requiredVars ->
  isSet env name = false ->
  (exists first,
      first ∈ requiredVars /\ isSet env first = false /\
      loadConfig env =
        Threw (new_Error ("Missing required environment variable: " +:+ first))) /\
  (forall before after,
      requiredVars = (before ++ name :: after)%list ->
      forallb (isSet env) before = true ->
      loadConfig env =
        Threw (new_Error ("Missing required environment variable: " +:+ name))).
Proof.
  intros Hin Hunset. split.
  - destruct (firstMissing_exists env name Hin Hunset) as (first & Hf & Hin' & Hu).
    exists first. repeat split; try assumption.
    by apply loadConfig_firstMissing.
  - intros before after Hsplit Hbefore.
    apply loadConfig_firstMissing. by eapply firstMissing_split.
Qed.

Lemma loadConfig_names_first_missing_witness :
  loadConfig (delete "TWITTER_ACCESS_TOKEN" testEnv) =
    Threw (new_Error "Missing required environment variable: TWITTER_ACCESS_TOKEN").
Proof.
  apply (loadConfig_names_first_missing
           (delete "TWITTER_ACCESS_TOKEN" testEnv) "TWITTER_ACCESS_TOKEN")
    with (before := ["TWITTER_API_KEY"; "TWITTER_API_SECRET"])
         (after := ["TWITTER_ACCESS_TOKEN_SECRET"; "TWITTER_BEARER_TOKEN"]).
  - compute_done.
  - vm_compute. reflexivity.
  - reflexivity.
  - vm_compute. reflexivity.
Defined.

(** C8 as the claim words it fails when an earlier variable is missing too:
    with TWITTER_API_KEY and TWITTER_BEARER_TOKEN both deleted, the error
    names TWITTER_API_KEY and does not mention TWITTER_BEARER_TOKEN. *)
Lemma loadConfig_later_missing_not_named :
  let env := delete "TWITTER_BEARER_TOKEN" (delete "TWITTER_API_KEY" testEnv) in
  env !! "TWITTER_BEARER_TOKEN" = None /\
  loadConfig env =
    Threw (new_Error "Missing required environment variable: TWITTER_API_KEY") /\
  exists message,
    thrownMessage (loadConfig env) = Some message /\
    mentions message "TWITTER_BEARER_TOKEN" = false.
Proof.
  split; [vm_compute; reflexivity|]. split; [vm_compute; reflexivity|].
  eexists. split; vm_compute; reflexivity.
Qed.

Lemma allRequiredSet_loadConfig env :
  allRequiredSet env = true ->
  loadConfig env =
    Returned
      {| AppConfig.twitter :=
           {| TwitterConfig.apiKey := nullish_string (env !! "TWITTER_API_KEY") "";
              TwitterConfig.apiSecret := nullish_string (env !! "TWITTER_API_SECRET") "";
              TwitterConfig.accessToken := nullish_string (env !! "TWITTER_ACCESS_TOKEN") "";
              TwitterConfig.accessTokenSecret :=
                nullish_string (env !! "TWITTER_ACCESS_TOKEN_SECRET") "";
              TwitterConfig.bearerToken := nullish_string (env !! "TWITTER_BEARER_TOKEN") "" |};
         AppConfig.anthropic :=
           {| AppConfig.apiKey := nullish_string (env !! "ANTHROPIC_API_KEY") "" |};
         AppConfig.app :=
           {| AppConfig.environment := or_string (env !! "NODE_ENV") "development";
              AppConfig.logLevel := or_string (env !! "LOG_LEVEL") "info" |} |}.
Proof.
  unfold allRequiredSet, requiredVars. simpl. rewrite !andb_true_iff.
  intros (H1 & H2 & H3 & H4 & H5 & _).
  unfold loadConfig. rewrite !getEnvVar_required, getEnvVar_optional.
  rewrite H1, H2, H3, H4, H5. reflexivity.
Qed.

(** C9, as the code has it.  With the five required variables usable,
    [loadConfig] returns; an unset ANTHROPIC_API_KEY gives the key [""], an
    unset NODE_ENV gives ['development'], an unset LOG_LEVEL gives ['info'];
    a NODE_ENV or LOG_LEVEL set to any non-empty string, in the enumeration
    or not, is passed through as it is; set to the empty string it is
    replaced by the default. *)
Theorem loadConfig_defaults_and_passthrough (env : gmap string string) :
  allRequiredSet env = true ->
  exists cfg,
    loadConfig env = Returned cfg /\
    (env !! "ANTHROPIC_API_KEY" = None -> AppConfig.apiKey (AppConfig.anthropic cfg) = "") /\
    (env !! "NODE_ENV" = None -> AppConfig.environment (AppConfig.app cfg) = "development") /\
    (env !! "LOG_LEVEL" = None -> AppConfig.logLevel (AppConfig.app cfg) = "info") /\
    (forall raw, raw <> "" -> env !! "NODE_ENV" = Some raw ->
                 AppConfig.environment (AppConfig.app cfg) = raw) /\
    (forall raw, raw <> "" -> env !! "LOG_LEVEL" = Some raw ->
                 AppConfig.logLevel (AppConfig.app cfg) = raw) /\
    (env !! "NODE_ENV" = Some "" -> AppConfig.environment (AppConfig.app cfg) = "development") /\
    (env !! "LOG_LEVEL" = Some "" -> AppConfig.logLevel (AppConfig.app cfg) = "info").
Proof.
  intros Hset. eexists. split; [by apply allRequiredSet_loadConfig|]. simpl.
  repeat split.
  - by intros ->.
  - by intros ->.
  - by intros ->.
  - intros raw Hne ->. by apply or_string_nonempty.
  - intros raw Hne ->. by apply or_string_nonempty.
  - by intros ->.
  - by intros ->.
Qed.

Lemma loadConfig_defaults_and_passthrough_witness :
  ("staging" ∉ environmentValues) /\
  exists cfg,
    loadConfig (<["NODE_ENV" := "staging"]> testEnv) = Returned cfg /\
    AppConfig.apiKey (AppConfig.anthropic cfg) = "" /\
    AppConfig.environment (AppConfig.app cfg) = "staging" /\
    AppConfig.logLevel (AppConfig.app cfg) = "info".
Proof.
  split; [compute_done|].
  destruct (loadConfig_defaults_and_passthrough (<["NODE_ENV" := "staging"]> testEnv))
    as (cfg & Hcfg & Hkey & _ & Hlevel & Henv & _).
  - vm_compute. reflexivity.
  - exists cfg. split; [exact Hcfg|]. split; [|split].
    + apply Hkey. vm_compute. reflexivity.
    + apply (Henv "staging"); [discriminate | vm_compute; reflexivity].
    + apply Hlevel. vm_compute. reflexivity.
Defined.

(** C9 as the claim words it fails at the empty string: NODE_ENV set to [""],
    which is outside the enumeration, is not passed through but replaced by
    ['development'] (and LOG_LEVEL set to [""] by ['info']). *)
Lemma loadConfig_empty_string_defaulted :
  let env := <["LOG_LEVEL" := ""]> (<["NODE_ENV" := ""]> testEnv) in
  env !! "NODE_ENV" = Some "" /\ ("" ∉ environmentValues) /\
  env !! "LOG_LEVEL" = Some "" /\ ("" ∉ logLevelValues) /\
  exists cfg,
    loadConfig env = Returned cfg /\
    AppConfig.environment (AppConfig.app cfg) = "development" /\
    AppConfig.logLevel (AppConfig.app cfg) = "info".
Proof.
  split; [vm_compute; reflexivity|]. split; [compute_done|].
  split; [vm_compute; reflexivity|]. split; [compute_done|].
  eexists. split; [vm_compute; reflexivity|]. split; reflexivity.
Qed.

(** ** Properties of [Map] *)

Section JsMapFacts.
Context {V : Type}.
Implicit Types (m : list (string * V)) (k : string) (v : V).

Lemma Map_get_set_eq m k v : Map_get k (Map_set k v m) = Some v.
Proof.
  induction m as [|[k' v'] m IH]; simpl.
  - by rewrite String.eqb_refl.
  - destruct (String.eqb_spec k' k) as [->|Hne]; simpl.
    + by rewrite String.eqb_refl.
    + destruct (String.eqb_spec k' k); [contradiction | exact IH].
Qed.

Lemma Map_get_set_ne m k v other :
  other <> k -> Map_get other (Map_set k v m) = Map_get other m.
Proof.
  intros Hne. induction m as [|[k' v'] m IH]; simpl.
  - destruct (String.eqb_spec k other); [congruence | reflexivity].
  - destruct (String.eqb_spec k' k) as [->|Hk]; simpl.
    + destruct (String.eqb_spec k other); [congruence | reflexivity].
    + destruct (String.eqb_spec k' other); [reflexivity | exact IH].
Qed.

Lemma Map_keys_set_In m k v other :
  In other (Map_keys (Map_set k v m)) <-> other = k \/ In other (Map_keys m).
Proof.
  induction m as [|[k' v'] m IH]; simpl.
  - intuition.
  - destruct (String.eqb_spec k' k) as [->|Hk]; simpl.
    + intuition.
    + rewrite IH. intuition.
Qed.

Lemma Map_set_NoDup m k v : NoDup (Map_keys m) -> NoDup (Map_keys (Map_set k v m)).
Proof.
  induction m as [|[k' v'] m IH]; simpl; intros Hnd.
  - apply NoDup_cons. split; [apply not_elem_of_nil | apply NoDup_nil_2].
  - apply NoDup_cons in Hnd as [Hnotin Hnd].
    destruct (String.eqb_spec k' k) as [->|Hk]; simpl.
    + apply NoDup_cons. split; assumption.
    + apply NoDup_cons. split; [|by apply IH].
      rewrite list_elem_of_In, Map_keys_set_In.
      intros [->|Hin]; [congruence|].
      apply Hnotin. by apply list_elem_of_In.
Qed.

Lemma new_Map_NoDup_from entries m :
  NoDup (Map_keys m) ->
  NoDup (Map_keys (fold_left (fun m kv => Map_set (fst kv) (snd kv) m) entries m)).
Proof.
  revert m. induction entries as [|[k v] entries IH]; simpl; intros m Hnd.
  - exact Hnd.
  - apply IH. by apply Map_set_NoDup.
Qed.
End JsMapFacts.

(** ** Properties of the wrapper *)

Lemma or_number_default (v : option Z) : or_number v 0 = default 0 v.
Proof.
  destruct v as [n|]; simpl; [|reflexivity].
  destruct (Z.eqb_spec n 0); congruence.
Qed.

Lemma or_number_nonneg (v : option Z) : absentOrNonNegative v -> 0 <= or_number v 0.
Proof.
  rewrite or_number_default. destruct v as [n|]; simpl; lia.
Qed.

Lemma truthy_string_false (v : option string) :
  truthy_string v = false <-> v = None \/ v = Some "".
Proof.
  destruct v as [s|]; simpl.
  - destruct (String.eqb_spec s ""); simpl; split; intros H;
      try subst; auto; try discriminate.
    destruct H as [H|H]; [discriminate | congruence].
  - split; auto.
Qed.

Lemma truthy_string_true (v : option string) :
  truthy_string v = true <-> exists s, v = Some s /\ s <> "".
Proof.
  destruct v as [s|]; simpl.
  - destruct (String.eqb_spec s ""); simpl; split; intros H; try discriminate.
    + destruct H as (s' & [= <-] & Hne). contradiction.
    + eauto.
    + reflexivity.
  - split; [discriminate | intros (s & [=] & _)].
Qed.

Section ClientFacts.
Context {World : Type}.
Variable host : Host.t World.
Variable api : TwitterApiV2.t World.
Implicit Types (s : State.t World) (e : JsValue) (w : World).

Lemma sameInstance_refl s : sameInstance s s.
Proof. by split. Qed.

Lemma sameInstance_trans s1 s2 s3 :
  sameInstance s1 s2 -> sameInstance s2 s3 -> sameInstance s1 s3.
Proof. intros [H1 H2] [H3 H4]. split; congruence. Qed.

Lemma sameInstance_withWorld s w : sameInstance s (withWorld s w).
Proof. by split. Qed.

Lemma sameInstance_rateLimits s s' : sameInstance s s' -> rateLimitsOf s' = rateLimitsOf s.
Proof. intros [H _]. unfold rateLimitsOf. by rewrite H. Qed.

Lemma quiet_ret {A} (a : A) : quiet (ret (World:=World) a).
Proof. intros s. exists a, s. split; [reflexivity | apply sameInstance_refl]. Qed.

Lemma quiet_bind {A B} (c : M (World:=World) A) (k : A -> M B) :
  quiet c -> (forall a, quiet (k a)) -> quiet (bind c k).
Proof.
  intros Hc Hk s. destruct (Hc s) as (a & s1 & Hrun & Hsame).
  destruct (Hk a s1) as (b & s2 & Hrun' & Hsame').
  exists b, s2. unfold bind. rewrite Hrun. split; [exact Hrun'|].
  by eapply sameInstance_trans.
Qed.

Lemma quiet_new_Date : quiet (new_Date host).
Proof.
  intros s. unfold new_Date.
  destruct (Host.Date_now host (State.world s)) as [t w].
  eexists _, _. split; [reflexivity | by split].
Qed.

Lemma quiet_createdAt_of created_at : quiet (createdAt_of host created_at).
Proof.
  unfold createdAt_of. destruct (truthy_string created_at).
  - apply quiet_ret.
  - apply quiet_new_Date.
Qed.

Lemma quiet_mapTweet tweet mediaMap : quiet (mapTweet host tweet mediaMap).
Proof.
  unfold mapTweet. apply quiet_bind; [apply quiet_createdAt_of|].
  intros d. apply quiet_ret.
Qed.

Lemma quiet_mapUser user : quiet (mapUser host user).
Proof.
  unfold mapUser. apply quiet_bind; [apply quiet_createdAt_of|].
  intros d. apply quiet_ret.
Qed.

Lemma quiet_Array_map {A B} (f : A -> M (World:=World) B) xs :
  (forall x, quiet (f x)) -> quiet (Array_map f xs).
Proof.
  intros Hf. induction xs as [|x xs IH]; simpl.
  - apply quiet_ret.
  - apply quiet_bind; [apply Hf|]. intros y.
    apply quiet_bind; [exact IH|]. intros ys. apply quiet_ret.
Qed.

(** Every element [xs.map(f)] returns was returned by [f]. *)
Lemma Array_map_Forall {A B} (f : A -> M (World:=World) B) (P : B -> Prop) xs :
  (forall x s y s', f x s = (Returned y, s') -> P y) ->
  forall s ys s', Array_map f xs s = (Returned ys, s') -> Forall P ys.
Proof.
  intros Hf. induction xs as [|x xs IH]; simpl; intros s ys s' Hrun.
  - injection Hrun as <- _. constructor.
  - unfold bind in Hrun.
    destruct (f x s) as [[y|e] s1] eqn:Hx; [|discriminate].
    fold (@bind World) in Hrun. unfold bind in Hrun.
    destruct (Array_map f xs s1) as [[ys'|e] s2] eqn:Hxs; [|discriminate].
    injection Hrun as <- _. constructor; eauto.
Qed.

Lemma Array_map_length {A B} (f : A -> M (World:=World) B) xs :
  forall s ys s', Array_map f xs s = (Returned ys, s') -> length ys = length xs.
Proof.
  induction xs as [|x xs IH]; simpl; intros s ys s' Hrun.
  - by injection Hrun as <- _.
  - unfold bind in Hrun.
    destruct (f x s) as [[y|e] s1] eqn:Hx; [|discriminate].
    destruct (Array_map f xs s1) as [[ys'|e] s2] eqn:Hxs; [|discriminate].
    injection Hrun as <- _. simpl. f_equal. eauto.
Qed.

(** [handleError] always returns; it logs one line, leaves the world and
    the client handles alone, and stores a snapshot exactly for an [Error]
    instance with a [rateLimit] payload. *)
Lemma handleError_run e context s :
  exists s',
    handleError e context s = (Returned tt, s') /\
    State.world s' = State.world s /\
    failureRecorded context e s s'.
Proof.
  destruct e as [message [| |rl]|shown rl]; simpl;
    (eexists; split; [reflexivity|]; split; [reflexivity|]);
    (split; [eexists; reflexivity|]); simpl; try reflexivity.
  unfold rateLimitsOf. simpl. split; [reflexivity|]. split; [apply Map_get_set_eq|].
  split; [intros other Hne; by apply Map_get_set_ne | apply Map_set_NoDup].
Qed.

Lemma failureRecorded_withWorld context e s w s' :
  failureRecorded context e (withWorld s w) s' -> failureRecorded context e s s'.
Proof. exact id. Qed.

(** The [catch] clause shared by the five operations that report through
    [handleError]. *)
Lemma catch_handleError {A} (body : M A) context (benign : A) s :
  match body s with
  | (Returned a, s1) =>
      try_catch body
        (fun error => bind (handleError error context) (fun _ => ret benign)) s
      = (Returned a, s1)
  | (Threw e, s1) =>
      exists s',
        try_catch body
          (fun error => bind (handleError error context) (fun _ => ret benign)) s
        = (Returned benign, s') /\
        State.world s' = State.world s1 /\
        failureRecorded context e s1 s'
  end.
Proof.
  unfold try_catch. destruct (body s) as [[a|e] s1]; [reflexivity|].
  destruct (handleError_run e context s1) as (s' & Hrun & Hw & Hrec).
  exists s'. unfold bind. rewrite Hrun.
  split; [reflexivity|]. split; assumption.
Qed.

(** A body that reads [this], awaits one library call and then maps the
    response without further calls. *)
Lemma await_then {A B} (call : TwitterClient.t -> World -> Outcome A * World)
    (rest : TwitterClient.t -> A -> M B) s :
  (forall this a, quiet (rest this a)) ->
  match call (State.this s) (State.world s) with
  | (Returned r, w) =>
      exists b s',
        bind get_this (fun this => bind (await (call this)) (rest this)) s
        = (Returned b, s') /\
        rest (State.this s) r (withWorld s w) = (Returned b, s') /\
        sameInstance s s'
  | (Threw e, w) =>
      bind get_this (fun this => bind (await (call this)) (rest this)) s
      = (Threw e, withWorld s w)
  end.
Proof.
  intros Hrest. unfold bind at 1. unfold get_this. unfold bind, await.
  destruct (call (State.this s) (State.world s)) as [[r|e] w]; [|reflexivity].
  destruct (Hrest (State.this s) r (withWorld s w)) as (b & s' & Hrun & Hsame).
  exists b, s'. unfold withWorld in *. rewrite Hrun.
  split; [reflexivity|]. split; [reflexivity|]. exact Hsame.
Qed.

(** One lemma per operation of that shape: what it does when its library
    call resolves, and what when it is rejected. *)
Lemma awaiting_operation {A B}
    (call : TwitterClient.t -> World -> Outcome A * World)
    (rest : TwitterClient.t -> A -> M B) context (benign : B) s :
  (forall this a, quiet (rest this a)) ->
  match call (State.this s) (State.world s) with
  | (Returned r, w) =>
      exists b s',
        try_catch (bind get_this (fun this => bind (await (call this)) (rest this)))
          (fun error => bind (handleError error context) (fun _ => ret benign)) s
        = (Returned b, s') /\
        rest (State.this s) r (withWorld s w) = (Returned b, s') /\
        sameInstance s s'
  | (Threw e, w) =>
      exists s',
        try_catch (bind get_this (fun this => bind (await (call this)) (rest this)))
          (fun error => bind (handleError error context) (fun _ => ret benign)) s
        = (Returned benign, s') /\
        State.world s' = w /\
        failureRecorded context e s s'
  end.
Proof.
  intros Hrest.
  pose proof (await_then call rest s Hrest) as Hbody.
  pose proof (catch_handleError
                (bind get_this (fun this => bind (await (call this)) (rest this)))
                context benign s) as Hcatch.
  destruct (call (State.this s) (State.world s)) as [[r|e] w].
  - destruct Hbody as (b & s' & Hrun & Hrest' & Hsame).
    rewrite Hrun in Hcatch. exists b, s'.
    split; [exact Hcatch|]. split; assumption.
  - rewrite Hbody in Hcatch. destruct Hcatch as (s' & Hrun & Hw & Hrec).
    exists s'. split; [exact Hrun|]. split; [exact Hw|].
    by apply failureRecorded_withWorld in Hrec.
Qed.

Lemma quiet_userResult (response : UserV2Result.t) :
  quiet (match UserV2Result.data response with
         | None => ret None
         | Some data => bind (mapUser host data) (fun user => ret (Some user))
         end).
Proof.
  destruct (UserV2Result.data response).
  - apply quiet_bind; [apply quiet_mapUser | intros; apply quiet_ret].
  - apply quiet_ret.
Qed.

Lemma getUser_cases username s :
  match TwitterApiV2.userByUsername api (TwitterClient.readOnlyClient (State.this s))
          username {| UserParams.user_fields := userFields |} (State.world s) with
  | (Returned r, w) =>
      exists u s', getUser host api username s = (Returned u, s') /\ sameInstance s s'
  | (Threw e, w) =>
      exists s', getUser host api username s = (Returned None, s') /\
                 State.world s' = w /\ failureRecorded "getUser" e s s'
  end.
Proof.
  pose proof (awaiting_operation
                (fun this => TwitterApiV2.userByUsername api
                               (TwitterClient.readOnlyClient this) username
                               {| UserParams.user_fields := userFields |})
                (fun _ response =>
                   match UserV2Result.data response with
                   | None => ret None
                   | Some data => bind (mapUser host data) (fun user => ret (Some user))
                   end)
                "getUser" None s (fun _ => quiet_userResult)) as H.
  cbv beta in H.
  destruct (TwitterApiV2.userByUsername _ _ _ _ _) as [[r|e] w].
  - destruct H as (u & s' & Hrun & _ & Hsame). by exists u, s'.
  - exact H.
Qed.

Lemma getUserById_cases userId s :
  match TwitterApiV2.user api (TwitterClient.readOnlyClient (State.this s))
          userId {| UserParams.user_fields := userFields |} (State.world s) with
  | (Returned r, w) =>
      exists u s', getUserById host api userId s = (Returned u, s') /\ sameInstance s s'
  | (Threw e, w) =>
      exists s', getUserById host api userId s = (Returned None, s') /\
                 State.world s' = w /\ failureRecorded "getUserById" e s s'
  end.
Proof.
  pose proof (awaiting_operation
                (fun this => TwitterApiV2.user api
                               (TwitterClient.readOnlyClient this) userId
                               {| UserParams.user_fields := userFields |})
                (fun _ response =>
                   match UserV2Result.data response with
                   | None => ret None
                   | Some data => bind (mapUser host data) (fun user => ret (Some user))
                   end)
                "getUserById" None s (fun _ => quiet_userResult)) as H.
  cbv beta in H.
  destruct (TwitterApiV2.user _ _ _ _ _) as [[r|e] w].
  - destruct H as (u & s' & Hrun & _ & Hsame). by exists u, s'.
  - exact H.
Qed.

Lemma quiet_tweetResult response : quiet (tweetResult host response).
Proof.
  unfold tweetResult. destruct (TweetV2SingleResult.data response).
  - apply quiet_bind; [apply quiet_mapTweet | intros; apply quiet_ret].
  - apply quiet_ret.
Qed.

Lemma getTweet_cases tweetId s :
  match TwitterApiV2.singleTweet api (TwitterClient.readOnlyClient (State.this s)) tweetId
          {| SingleTweetParams.tweet_fields := tweetFields;
             SingleTweetParams.media_fields := mediaFields;
             SingleTweetParams.expansions := tweetExpansions |} (State.world s) with
  | (Returned r, w) =>
      exists t s', getTweet host api tweetId s = (Returned t, s') /\
                   tweetResult host r (withWorld s w) = (Returned t, s') /\
                   sameInstance s s'
  | (Threw e, w) =>
      exists s', getTweet host api tweetId s = (Returned None, s') /\
                 State.world s' = w /\ failureRecorded "getTweet" e s s'
  end.
Proof.
  exact (awaiting_operation
           (fun this => TwitterApiV2.singleTweet api
                          (TwitterClient.readOnlyClient this) tweetId
                          {| SingleTweetParams.tweet_fields := tweetFields;
                             SingleTweetParams.media_fields := mediaFields;
                             SingleTweetParams.expansions := tweetExpansions |})
           (fun _ => tweetResult host) "getTweet" None s (fun _ => quiet_tweetResult)).
Qed.

Lemma quiet_pageResult previous response : quiet (pageResult host previous response).
Proof.
  apply quiet_bind.
  - apply quiet_Array_map. intros tweet. apply quiet_mapTweet.
  - intros data. apply quiet_ret.
Qed.

Lemma searchTweets_cases query options s :
  match TwitterApiV2.search api (TwitterClient.readOnlyClient (State.this s)) query
          (searchParams options) (State.world s) with
  | (Returned r, w) =>
      exists page s', searchTweets host api query options s = (Returned page, s') /\
                      pageResult host false r (withWorld s w) = (Returned page, s') /\
                      sameInstance s s'
  | (Threw e, w) =>
      exists s', searchTweets host api query options s = (Returned emptyPage, s') /\
                 State.world s' = w /\ failureRecorded "searchTweets" e s s'
  end.
Proof.
  exact (awaiting_operation
           (fun this => TwitterApiV2.search api
                          (TwitterClient.readOnlyClient this) query (searchParams options))
           (fun _ => pageResult host false) "searchTweets" emptyPage s
           (fun _ => quiet_pageResult false)).
Qed.

Lemma optional_toISOString_throws d e :
  optional_toISOString host d = Threw e -> rateLimitOf e = None.
Proof.
  destruct d as [[t|]|]; simpl; intros H; try discriminate.
  by injection H as <-.
Qed.

Lemma getUserTweets_cases userId options s :
  match optional_toISOString host (UserTweetsOptions.startTime options),
        optional_toISOString host (UserTweetsOptions.endTime options) with
  | Returned start_time, Returned end_time =>
      match TwitterApiV2.userTimeline api (TwitterClient.readOnlyClient (State.this s))
              userId (timelineParams options start_time end_time) (State.world s) with
      | (Returned r, w) =>
          exists page s',
            getUserTweets host api userId options s = (Returned page, s') /\
            pageResult host true r (withWorld s w) = (Returned page, s') /\
            sameInstance s s'
      | (Threw e, w) =>
          exists s',
            getUserTweets host api userId options s = (Returned emptyPage, s') /\
            State.world s' = w /\ failureRecorded "getUserTweets" e s s'
      end
  | Threw e, _ | Returned _, Threw e =>
      exists s',
        getUserTweets host api userId options s = (Returned emptyPage, s') /\
        State.world s' = State.world s /\
        failureRecorded "getUserTweets" e s s' /\ rateLimitOf e = None
  end.
Proof.
  pose proof (catch_handleError
                (bind get_this (fun this =>
                 bind (lift (optional_toISOString host (UserTweetsOptions.startTime options)))
                   (fun start_time =>
                 bind (lift (optional_toISOString host (UserTweetsOptions.endTime options)))
                   (fun end_time =>
                 bind (await (TwitterApiV2.userTimeline api
                                (TwitterClient.readOnlyClient this) userId
                                (timelineParams options start_time end_time)))
                   (pageResult host true)))))
                "getUserTweets" emptyPage s) as Hcatch.
  change (try_catch _ _ s) with (getUserTweets host api userId options s) in Hcatch.
  unfold bind at 1 in Hcatch. unfold get_this in Hcatch.
  unfold bind at 1 in Hcatch. unfold lift at 1 in Hcatch.
  destruct (optional_toISOString host (UserTweetsOptions.startTime options))
    as [start_time|e] eqn:Hstart.
  - unfold bind at 1 in Hcatch. unfold lift at 1 in Hcatch.
    destruct (optional_toISOString host (UserTweetsOptions.endTime options))
      as [end_time|e] eqn:Hend.
    + unfold bind at 1, await in Hcatch.
      destruct (TwitterApiV2.userTimeline _ _ _ _ _) as [[r|e] w].
      * destruct (quiet_pageResult true r (withWorld s w)) as (page & s' & Hrun & Hsame).
        unfold withWorld in Hrun. rewrite Hrun in Hcatch.
        exists page, s'. split; [exact Hcatch|]. split; [exact Hrun | exact Hsame].
      * exact Hcatch.
    + destruct Hcatch as (s' & Hrun & Hw & Hrec).
      exists s'. repeat (split; [assumption|]).
      by eapply optional_toISOString_throws.
  - destruct Hcatch as (s' & Hrun & Hw & Hrec).
    exists s'. repeat (split; [assumption|]).
    by eapply optional_toISOString_throws.
Qed.

Lemma verifyCredentials_oauth1 s :
  TwitterClient.authMethod (State.this s) = "oauth1" ->
  verifyCredentials api s =
  match TwitterApiV2.me api (TwitterClient.client (State.this s)) (State.world s) with
  | (Returned me, w) => (Returned (truthy_object (UserV2Result.data me)), withWorld s w)
  | (Threw e, w) =>
      (Returned false,
       State.mk (State.this s)
         (State.console s ++ [[LogString "Credential verification failed:"; LogValue e]])
         w)
  end.
Proof.
  intros Hauth. unfold verifyCredentials, try_catch, bind, get_this. simpl.
  rewrite Hauth. simpl. unfold await.
  by destruct (TwitterApiV2.me _ _ _) as [[me|e] w].
Qed.

Lemma verifyCredentials_other s :
  TwitterClient.authMethod (State.this s) <> "oauth1" ->
  verifyCredentials api s =
  match TwitterApiV2.tweets api (TwitterClient.readOnlyClient (State.this s)) ["1"]
          (State.world s) with
  | (Returned _, w) => (Returned true, withWorld s w)
  | (Threw e, w) =>
      (Returned false,
       State.mk (State.this s)
         (State.console s ++ [[LogString "Credential verification failed:"; LogValue e]])
         w)
  end.
Proof.
  intros Hauth. unfold verifyCredentials, try_catch, bind, get_this. simpl.
  destruct (String.eqb_spec (TwitterClient.authMethod (State.this s)) "oauth1");
    [contradiction|].
  unfold await. by destruct (TwitterApiV2.tweets _ _ _ _) as [[r|e] w].
Qed.

Lemma rateLimitOf_Some e rl :
  rateLimitOf e = Some rl <-> exists message, e = ErrorInstance message (Truthy rl).
Proof.
  split.
  - destruct e as [message [| |rl']|shown rl']; simpl; intros [=]. subst. eauto.
  - by intros [message ->].
Qed.

Lemma failureRecorded_without_payload context e s s' :
  rateLimitOf e = None -> failureRecorded context e s s' ->
  rateLimitsOf s' = rateLimitsOf s.
Proof. intros He [_ Hrec]. by rewrite He in Hrec. Qed.

(** Every operation returns.  When its library call was rejected it
    returns its failure result, and the state shows the failure the way
    that operation reports it; otherwise the rate limits are as before. *)
Lemma operation_summary op s :
  exists r s',
    run host api op s = (Returned r, s') /\
    match clientError host api op s with
    | Some e =>
        r = failureResult op /\
        if usesHandleError op
        then failureRecorded (contextOf op) e s s'
        else rateLimitsOf s' = rateLimitsOf s /\ loggedOne s s'
    | None => rateLimitsOf s' = rateLimitsOf s
    end.
Proof.
  destruct op as [|username|userId|userId options|tweetId|query options];
    unfold run, clientError; cbv zeta.
  - destruct (String.eqb_spec (TwitterClient.authMethod (State.this s)) "oauth1")
      as [Hauth|Hauth].
    + rewrite (verifyCredentials_oauth1 s Hauth).
      destruct (TwitterApiV2.me _ _ _) as [[me|e] w]; simpl.
      * by eexists _, _.
      * eexists _, _. split; [reflexivity|]. split; [reflexivity|].
        split; [reflexivity | by eexists].
    + rewrite (verifyCredentials_other s Hauth).
      destruct (TwitterApiV2.tweets _ _ _ _) as [[r|e] w]; simpl.
      * by eexists _, _.
      * eexists _, _. split; [reflexivity|]. split; [reflexivity|].
        split; [reflexivity | by eexists].
  - pose proof (getUser_cases username s) as H.
    destruct (TwitterApiV2.userByUsername _ _ _ _ _) as [[r|e] w]; simpl.
    + destruct H as (u & s' & -> & Hsame). exists (User u), s'.
      split; [reflexivity | by apply sameInstance_rateLimits].
    + destruct H as (s' & -> & _ & Hrec). exists (User None), s'.
      split; [reflexivity|]. split; [reflexivity | exact Hrec].
  - pose proof (getUserById_cases userId s) as H.
    destruct (TwitterApiV2.user _ _ _ _ _) as [[r|e] w]; simpl.
    + destruct H as (u & s' & -> & Hsame). exists (User u), s'.
      split; [reflexivity | by apply sameInstance_rateLimits].
    + destruct H as (s' & -> & _ & Hrec). exists (User None), s'.
      split; [reflexivity|]. split; [reflexivity | exact Hrec].
  - pose proof (getUserTweets_cases userId options s) as H.
    destruct (optional_toISOString host (UserTweetsOptions.startTime options))
      as [start_time|e1];
      [destruct (optional_toISOString host (UserTweetsOptions.endTime options))
         as [end_time|e2] |].
    + destruct (TwitterApiV2.userTimeline _ _ _ _ _) as [[r|e] w]; simpl.
      * destruct H as (page & s' & -> & _ & Hsame). exists (Page page), s'.
        split; [reflexivity | by apply sameInstance_rateLimits].
      * destruct H as (s' & -> & _ & Hrec). exists (Page emptyPage), s'.
        split; [reflexivity|]. split; [reflexivity | exact Hrec].
    + destruct H as (s' & -> & _ & Hrec & He). exists (Page emptyPage), s'.
      split; [reflexivity | by eapply failureRecorded_without_payload].
    + destruct H as (s' & -> & _ & Hrec & He). exists (Page emptyPage), s'.
      split; [reflexivity | by eapply failureRecorded_without_payload].
  - pose proof (getTweet_cases tweetId s) as H.
    destruct (TwitterApiV2.singleTweet _ _ _ _ _) as [[r|e] w]; simpl.
    + destruct H as (t & s' & -> & _ & Hsame). exists (Post t), s'.
      split; [reflexivity | by apply sameInstance_rateLimits].
    + destruct H as (s' & -> & _ & Hrec). exists (Post None), s'.
      split; [reflexivity|]. split; [reflexivity | exact Hrec].
  - pose proof (searchTweets_cases query options s) as H.
    destruct (TwitterApiV2.search _ _ _ _ _) as [[r|e] w]; simpl.
    + destruct H as (page & s' & -> & _ & Hsame). exists (Page page), s'.
      split; [reflexivity | by apply sameInstance_rateLimits].
    + destruct H as (s' & -> & _ & Hrec). exists (Page emptyPage), s'.
      split; [reflexivity|]. split; [reflexivity | exact Hrec].
Qed.

Lemma sameRateLimitQueries_of s s' :
  rateLimitsOf s' = rateLimitsOf s -> sameRateLimitQueries s s'.
Proof.
  unfold rateLimitsOf, sameRateLimitQueries, getRateLimitInfo, getAllRateLimits,
    bind, get_this, ret.
  simpl. intros ->. by split.
Qed.

(** C1.  Each of the six operations returns and never throws, in every
    state; and when the underlying client throws [e] during the operation,
    the operation returns its documented failure result: [false] for
    verifyCredentials, [null] for getUser, getUserById and getTweet, and a
    page with no posts and resultCount 0 for getUserTweets and
    searchTweets. *)
Theorem operations_catch_client_errors (op : Operation) (s : State.t World) :
  (exists r s', run host api op s = (Returned r, s')) /\
  (forall e, clientError host api op s = Some e ->
             fst (run host api op s) = Returned (failureResult op)).
Proof.
  destruct (operation_summary op s) as (r & s' & Hrun & Hsum). split.
  - by exists r, s'.
  - intros e He. rewrite He in Hsum. destruct Hsum as [-> _]. by rewrite Hrun.
Qed.

(** C2, as the code has it.  The five operations that report through
    [handleError] (all but verifyCredentials) record the failure: when the
    client throws an [Error] instance with a rate-limit payload, the
    snapshot for the operation's own name is set to the payload, its reset
    being the date [new Date(seconds * 1000)]: the time value seconds * 1000
    when that is within 8.64e15 milliseconds of the epoch, and Invalid Date
    beyond.  The entries under every other name are as before, and no name
    gets a second entry.  Without such a payload the rate limits are as
    before; in both cases one line is logged.  verifyCredentials logs the
    failure itself and records nothing. *)
Theorem handled_failures_record_snapshot (op : Operation) (s : State.t World) :
  let before := rateLimitsOf s in
  let after := rateLimitsOf (snd (run host api op s)) in
  (NoDup (Map_keys before) -> NoDup (Map_keys after)) /\
  (forall e,
      clientError host api op s = Some e ->
      loggedOne s (snd (run host api op s)) /\
      (usesHandleError op = true ->
       forall rl, rateLimitOf e = Some rl ->
         Map_get (contextOf op) after =
           Some {| RateLimitInfo.endpoint := contextOf op;
                   RateLimitInfo.limit := RateLimit.limit rl;
                   RateLimitInfo.remaining := RateLimit.remaining rl;
                   RateLimitInfo.reset :=
                     if Z.abs (RateLimit.reset rl * 1000) <=? 8640000000000000
                     then TimeValue (RateLimit.reset rl * 1000)
                     else InvalidDate |} /\
         (forall other, other <> contextOf op ->
                        Map_get other after = Map_get other before)) /\
      (usesHandleError op = true -> rateLimitOf e = None -> after = before) /\
      (usesHandleError op = false -> after = before)).
Proof.
  cbv zeta. destruct (operation_summary op s) as (r & s' & Hrun & Hsum).
  rewrite Hrun. cbn [snd]. split.
  - intros Hnodup. destruct (clientError host api op s) as [e|]; [|by rewrite Hsum].
    destruct Hsum as [_ Hsum]. destruct (usesHandleError op).
    + destruct Hsum as [_ Hrec]. destruct (rateLimitOf e) as [rl|].
      * destruct Hrec as (_ & _ & _ & Hkeep). by apply Hkeep.
      * by rewrite Hrec.
    + destruct Hsum as [-> _]. exact Hnodup.
  - intros e He. rewrite He in Hsum. destruct Hsum as [_ Hsum].
    destruct (usesHandleError op).
    + destruct Hsum as [Hlog Hrec]. split; [exact Hlog|]. split; [|split].
      * intros _ rl Hrl. rewrite Hrl in Hrec.
        destruct Hrec as (_ & Hget & Hother & _).
        split; [|exact Hother]. rewrite Hget. f_equal.
      * intros _ Hnone. by rewrite Hnone in Hrec.
      * discriminate.
    + destruct Hsum as [Hsame Hlog]. split; [exact Hlog|].
      split; [discriminate|]. split; [discriminate | by intros _].
Qed.

(** C10.  An operation during which the underlying client does not throw
    leaves the rate-limit map as it was, and the two queries answer as
    before.  If an operation changed the map, it is one that reports
    through [handleError] and the client threw an [Error] instance with a
    rate-limit payload.  A thrown value that is not an [Error] instance,
    whatever it carries, leaves the map as it was and is logged. *)
Theorem rateLimits_changed_only_by_handleError (op : Operation) (s : State.t World) :
  let s' := snd (run host api op s) in
  (clientError host api op s = None ->
   rateLimitsOf s' = rateLimitsOf s /\ sameRateLimitQueries s s') /\
  (rateLimitsOf s' <> rateLimitsOf s ->
   usesHandleError op = true /\
   exists message rl,
     clientError host api op s = Some (ErrorInstance message (Truthy rl))) /\
  (forall shown payload,
      clientError host api op s = Some (OtherValue shown payload) ->
      rateLimitsOf s' = rateLimitsOf s /\ sameRateLimitQueries s s' /\ loggedOne s s').
Proof.
  cbv zeta. destruct (operation_summary op s) as (r & s' & Hrun & Hsum).
  rewrite Hrun. simpl. split; [|split].
  - intros He. rewrite He in Hsum. split; [exact Hsum | by apply sameRateLimitQueries_of].
  - intros Hchanged. destruct (clientError host api op s) as [e|]; [|contradiction].
    destruct Hsum as [_ Hsum]. destruct (usesHandleError op).
    + split; [reflexivity|]. destruct Hsum as [_ Hrec].
      destruct (rateLimitOf e) as [rl|] eqn:Hrl; [|contradiction].
      apply rateLimitOf_Some in Hrl as [message ->]. by exists message, rl.
    + destruct Hsum as [Hsame _]. contradiction.
  - intros shown payload He. rewrite He in Hsum. destruct Hsum as [_ Hsum].
    assert (rateLimitsOf s' = rateLimitsOf s /\ loggedOne s s') as [Hsame Hlog].
    { destruct (usesHandleError op).
      - destruct Hsum as [Hlog Hrec]. by split.
      - destruct Hsum as [Hsame Hlog]. by split. }
    split; [exact Hsame|]. split; [by apply sameRateLimitQueries_of | exact Hlog].
Qed.

(** *** The mappings *)

Lemma createdAt_of_absent created_at s :
  created_at = None \/ created_at = Some "" ->
  createdAt_of host created_at s =
    (Returned (TimeValue (fst (Host.Date_now host (State.world s)))),
     withWorld s (snd (Host.Date_now host (State.world s)))).
Proof.
  intros H. apply truthy_string_false in H. unfold createdAt_of, new_Date.
  rewrite H. by destruct (Host.Date_now host (State.world s)).
Qed.

Lemma createdAt_of_present str s :
  str <> "" ->
  createdAt_of host (Some str) s =
    (Returned (match Host.Date_parse host str with
               | Some ms => TimeValue ms
               | None => InvalidDate
               end), s).
Proof.
  intros Hne. unfold createdAt_of.
  assert (truthy_string (Some str) = true) as -> by (apply truthy_string_true; eauto).
  reflexivity.
Qed.

(** [mapTweet] returns the object literal of the source, with the date
    [createdAt_of] gave. *)
Lemma mapTweet_run tweet mediaMap s :
  exists d s',
    createdAt_of host (TweetV2.created_at tweet) s = (Returned d, s') /\
    sameInstance s s' /\
    mapTweet host tweet mediaMap s =
      (Returned
         {| Tweet.id := TweetV2.id tweet;
            Tweet.text := TweetV2.text tweet;
            Tweet.authorId := or_string (TweetV2.author_id tweet) "";
            Tweet.createdAt := d;
            Tweet.metrics :=
              {| TweetMetrics.likes :=
                   or_number (TweetV2.public_metrics tweet ≫= TweetPublicMetrics.like_count) 0;
                 TweetMetrics.retweets :=
                   or_number (TweetV2.public_metrics tweet ≫= TweetPublicMetrics.retweet_count) 0;
                 TweetMetrics.replies :=
                   or_number (TweetV2.public_metrics tweet ≫= TweetPublicMetrics.reply_count) 0;
                 TweetMetrics.impressions :=
                   or_number (TweetV2.public_metrics tweet ≫= TweetPublicMetrics.impression_count) 0;
                 TweetMetrics.quotes :=
                   or_number (TweetV2.public_metrics tweet ≫= TweetPublicMetrics.quote_count) 0;
                 TweetMetrics.bookmarks :=
                   or_number (TweetV2.public_metrics tweet ≫= TweetPublicMetrics.bookmark_count) 0 |};
            Tweet.media := None;
            Tweet.referencedTweets :=
              map (fun ref => {| ReferencedTweet.type := ReferencedTweetV2.type ref;
                                 ReferencedTweet.id := ReferencedTweetV2.id ref |})
                <$> TweetV2.referenced_tweets tweet |}, s').
Proof.
  destruct (quiet_createdAt_of (TweetV2.created_at tweet) s) as (d & s' & Hrun & Hsame).
  exists d, s'. split; [exact Hrun|]. split; [exact Hsame|].
  unfold mapTweet, bind. by rewrite Hrun.
Qed.

Lemma mapUser_run user s :
  exists d s',
    createdAt_of host (UserV2.created_at user) s = (Returned d, s') /\
    sameInstance s s' /\
    mapUser host user s =
      (Returned
         {| TwitterUser.id := UserV2.id user;
            TwitterUser.username := UserV2.username user;
            TwitterUser.displayName := UserV2.name user;
            TwitterUser.description := or_string (UserV2.description user) "";
            TwitterUser.profileImageUrl := or_string (UserV2.profile_image_url user) "";
            TwitterUser.followersCount :=
              or_number (UserV2.public_metrics user ≫= UserPublicMetrics.followers_count) 0;
            TwitterUser.followingCount :=
              or_number (UserV2.public_metrics user ≫= UserPublicMetrics.following_count) 0;
            TwitterUser.tweetCount :=
              or_number (UserV2.public_metrics user ≫= UserPublicMetrics.tweet_count) 0;
            TwitterUser.verified := or_bool (UserV2.verified user) false;
            TwitterUser.createdAt := d |}, s').
Proof.
  destruct (quiet_createdAt_of (UserV2.created_at user) s) as (d & s' & Hrun & Hsame).
  exists d, s'. split; [exact Hrun|]. split; [exact Hsame|].
  unfold mapUser, bind. rewrite Hrun. by destruct (UserV2.public_metrics user).
Qed.

(** C3, as the code has it.  [mapTweet] always returns.  Each metric is
    the raw sub-field when it is present and 0 when it, or the whole
    metrics object, is absent, each on its own.  An absent or empty
    creation timestamp gives the clock reading taken during the mapping; a
    non-empty one gives what [Date.parse] makes of it, Invalid Date when it
    does not parse.  [referencedTweets] is absent when the source list is,
    and otherwise has one entry per source entry with its kind and id
    unchanged, whatever the kind. *)
Theorem mapTweet_defaults (tweet : TweetV2.t)
    (mediaMap : list (string * MediaObjectV2.t)) (s : State.t World) :
  exists t s',
    mapTweet host tweet mediaMap s = (Returned t, s') /\
    let raw := TweetV2.public_metrics tweet in
    let m := Tweet.metrics t in
    TweetMetrics.likes m = default 0 (raw ≫= TweetPublicMetrics.like_count) /\
    TweetMetrics.retweets m = default 0 (raw ≫= TweetPublicMetrics.retweet_count) /\
    TweetMetrics.replies m = default 0 (raw ≫= TweetPublicMetrics.reply_count) /\
    TweetMetrics.impressions m = default 0 (raw ≫= TweetPublicMetrics.impression_count) /\
    TweetMetrics.quotes m = default 0 (raw ≫= TweetPublicMetrics.quote_count) /\
    TweetMetrics.bookmarks m = default 0 (raw ≫= TweetPublicMetrics.bookmark_count) /\
    (TweetV2.created_at tweet = None \/ TweetV2.created_at tweet = Some "" ->
     Tweet.createdAt t = TimeValue (fst (Host.Date_now host (State.world s)))) /\
    (forall str, TweetV2.created_at tweet = Some str -> str <> "" ->
                 Tweet.createdAt t = match Host.Date_parse host str with
                                     | Some ms => TimeValue ms
                                     | None => InvalidDate
                                     end) /\
    (TweetV2.referenced_tweets tweet = None -> Tweet.referencedTweets t = None) /\
    (forall refs, TweetV2.referenced_tweets tweet = Some refs ->
       exists out,
         Tweet.referencedTweets t = Some out /\
         length out = length refs /\
         forall i ref, refs !! i = Some ref ->
                       out !! i = Some {| ReferencedTweet.type := ReferencedTweetV2.type ref;
                                          ReferencedTweet.id := ReferencedTweetV2.id ref |}).
Proof.
  destruct (mapTweet_run tweet mediaMap s) as (d & s' & Hdate & _ & Hrun).
  eexists _, s'. split; [exact Hrun|]. cbv zeta. simpl.
  rewrite !or_number_default.
  do 6 (split; [reflexivity|]). split; [|split; [|split]].
  - intros Habsent. rewrite (createdAt_of_absent _ s Habsent) in Hdate.
    by injection Hdate as <- _.
  - intros str Hstr Hne. rewrite Hstr, (createdAt_of_present str s Hne) in Hdate.
    by injection Hdate as <- _.
  - by intros ->.
  - intros refs ->. eexists. split; [reflexivity|]. split; [by rewrite length_map|].
    intros i ref Hi. by rewrite list_lookup_fmap, Hi.
Qed.

(** C5, as the code has it.  Every metric of a mapped post and every count
    of a mapped profile is a number: the raw field when present, 0 when
    absent.  It is not negative whenever the raw field is absent or not
    negative; a negative raw field is passed through. *)
Theorem mapped_counts_nonnegative :
  (forall tweet mediaMap (s : State.t World),
      exists t s',
        mapTweet host tweet mediaMap s = (Returned t, s') /\
        let raw := TweetV2.public_metrics tweet in
        let m := Tweet.metrics t in
        TweetMetrics.likes m = default 0 (raw ≫= TweetPublicMetrics.like_count) /\
        TweetMetrics.retweets m = default 0 (raw ≫= TweetPublicMetrics.retweet_count) /\
        TweetMetrics.replies m = default 0 (raw ≫= TweetPublicMetrics.reply_count) /\
        TweetMetrics.impressions m = default 0 (raw ≫= TweetPublicMetrics.impression_count) /\
        TweetMetrics.quotes m = default 0 (raw ≫= TweetPublicMetrics.quote_count) /\
        TweetMetrics.bookmarks m = default 0 (raw ≫= TweetPublicMetrics.bookmark_count) /\
        (absentOrNonNegative (raw ≫= TweetPublicMetrics.like_count) ->
         0 <= TweetMetrics.likes m) /\
        (absentOrNonNegative (raw ≫= TweetPublicMetrics.retweet_count) ->
         0 <= TweetMetrics.retweets m) /\
        (absentOrNonNegative (raw ≫= TweetPublicMetrics.reply_count) ->
         0 <= TweetMetrics.replies m) /\
        (absentOrNonNegative (raw ≫= TweetPublicMetrics.impression_count) ->
         0 <= TweetMetrics.impressions m) /\
        (absentOrNonNegative (raw ≫= TweetPublicMetrics.quote_count) ->
         0 <= TweetMetrics.quotes m) /\
        (absentOrNonNegative (raw ≫= TweetPublicMetrics.bookmark_count) ->
         0 <= TweetMetrics.bookmarks m)) /\
  (forall user (s : State.t World),
      exists u s',
        mapUser host user s = (Returned u, s') /\
        let raw := UserV2.public_metrics user in
        TwitterUser.followersCount u = default 0 (raw ≫= UserPublicMetrics.followers_count) /\
        TwitterUser.followingCount u = default 0 (raw ≫= UserPublicMetrics.following_count) /\
        TwitterUser.tweetCount u = default 0 (raw ≫= UserPublicMetrics.tweet_count) /\
        (absentOrNonNegative (raw ≫= UserPublicMetrics.followers_count) ->
         0 <= TwitterUser.followersCount u) /\
        (absentOrNonNegative (raw ≫= UserPublicMetrics.following_count) ->
         0 <= TwitterUser.followingCount u) /\
        (absentOrNonNegative (raw ≫= UserPublicMetrics.tweet_count) ->
         0 <= TwitterUser.tweetCount u)).
Proof.
  split.
  - intros tweet mediaMap s.
    destruct (mapTweet_run tweet mediaMap s) as (d & s' & _ & _ & Hrun).
    eexists _, s'. split; [exact Hrun|]. cbv zeta. simpl.
    rewrite !or_number_default.
    do 6 (split; [reflexivity|]).
    rewrite <- !or_number_default. repeat split; apply or_number_nonneg.
  - intros user s.
    destruct (mapUser_run user s) as (d & s' & _ & _ & Hrun).
    eexists _, s'. split; [exact Hrun|]. cbv zeta. simpl.
    rewrite !or_number_default.
    do 3 (split; [reflexivity|]).
    rewrite <- !or_number_default. repeat split; apply or_number_nonneg.
Qed.

(** No post that [mapTweet] returns has a [media] property, whatever the
    media map holds. *)
Lemma mapTweet_media tweet mediaMap s t s' :
  mapTweet host tweet mediaMap s = (Returned t, s') -> Tweet.media t = None.
Proof.
  destruct (mapTweet_run tweet mediaMap s) as (d & s1 & _ & _ & Hrun).
  rewrite Hrun. by intros [= <- _].
Qed.

(** The same for every post the three post operations return. *)
Lemma posts_never_carry_media op s r s' :
  run host api op s = (Returned r, s') ->
  match r with
  | Post (Some t) => Tweet.media t = None
  | Page page => Forall (fun t => Tweet.media t = None) (PaginatedResponse.data page)
  | _ => True
  end.
Proof.
  assert (forall previous response s1 page s2,
             pageResult host previous response s1 = (Returned page, s2) ->
             Forall (fun t => Tweet.media t = None) (PaginatedResponse.data page))
    as Hpage.
  { intros previous response s1 page s2. unfold pageResult, bind.
    destruct (Array_map _ _ s1) as [[data|e] s3] eqn:Hmap; [|discriminate].
    intros [= <- _]. simpl.
    eapply Array_map_Forall; [|exact Hmap].
    intros x sx y sy. apply mapTweet_media. }
  destruct op as [|username|userId|userId options|tweetId|query options];
    unfold run.
  - destruct (verifyCredentials api s) as [[ok|e] s1]; simpl; intros [= <- _]; exact I.
  - destruct (getUser host api username s) as [[u|e] s1]; simpl; intros [= <- _]; exact I.
  - destruct (getUserById host api userId s) as [[u|e] s1]; simpl; intros [= <- _]; exact I.
  - pose proof (getUserTweets_cases userId options s) as H.
    destruct (optional_toISOString host (UserTweetsOptions.startTime options))
      as [start_time|e1];
      [destruct (optional_toISOString host (UserTweetsOptions.endTime options))
         as [end_time|e2] |].
    + destruct (TwitterApiV2.userTimeline _ _ _ _ _) as [[resp|e] w].
      * destruct H as (page & s1 & -> & Hres & _). simpl. intros [= <- _].
        by eapply Hpage.
      * destruct H as (s1 & -> & _). simpl. intros [= <- _]. constructor.
    + destruct H as (s1 & -> & _). simpl. intros [= <- _]. constructor.
    + destruct H as (s1 & -> & _). simpl. intros [= <- _]. constructor.
  - pose proof (getTweet_cases tweetId s) as H.
    destruct (TwitterApiV2.singleTweet _ _ _ _ _) as [[resp|e] w].
    + destruct H as (t & s1 & -> & Hres & _). simpl. intros [= <- _].
      destruct t as [t|]; [|exact I].
      unfold tweetResult in Hres.
      destruct (TweetV2SingleResult.data resp) as [data|]; [|discriminate].
      unfold bind in Hres.
      destruct (mapTweet host data _ _) as [[t'|e] s2] eqn:Hmap; [|discriminate].
      injection Hres as <- _. by eapply mapTweet_media.
    + destruct H as (s1 & -> & _). simpl. by intros [= <- _].
  - pose proof (searchTweets_cases query options s) as H.
    destruct (TwitterApiV2.search _ _ _ _ _) as [[resp|e] w].
    + destruct H as (page & s1 & -> & Hres & _). simpl. intros [= <- _].
      by eapply Hpage.
    + destruct H as (s1 & -> & _). simpl. intros [= <- _]. constructor.
Qed.

(** *** Credentials *)

(** C6.  Under auth method oauth1, verifyCredentials awaits [v2.me] on the
    client and returns true exactly when the response has a profile; under
    any other auth method it awaits [v2.tweets(['1'])] on the read-only
    client and returns true whenever that call resolves.  In both cases a
    rejected probe makes it return false; it never throws.  The world after
    the operation is the one the probe left. *)
Theorem verifyCredentials_probes (s : State.t World) :
  let this := State.this s in
  (TwitterClient.authMethod this = "oauth1" ->
   (forall me w,
       TwitterApiV2.me api (TwitterClient.client this) (State.world s) = (Returned me, w) ->
       exists ok,
         verifyCredentials api s = (Returned ok, withWorld s w) /\
         (ok = true <-> is_Some (UserV2Result.data me))) /\
   (forall e w,
       TwitterApiV2.me api (TwitterClient.client this) (State.world s) = (Threw e, w) ->
       exists s', verifyCredentials api s = (Returned false, s') /\ State.world s' = w)) /\
  (TwitterClient.authMethod this <> "oauth1" ->
   (forall lookup w,
       TwitterApiV2.tweets api (TwitterClient.readOnlyClient this) ["1"] (State.world s)
       = (Returned lookup, w) ->
       verifyCredentials api s = (Returned true, withWorld s w)) /\
   (forall e w,
       TwitterApiV2.tweets api (TwitterClient.readOnlyClient this) ["1"] (State.world s)
       = (Threw e, w) ->
       exists s', verifyCredentials api s = (Returned false, s') /\ State.world s' = w)).
Proof.
  cbv zeta. split; intros Hauth.
  - rewrite (verifyCredentials_oauth1 s Hauth). split.
    + intros me w ->. eexists. split; [reflexivity|].
      destruct (UserV2Result.data me); simpl; split; intros H;
        try reflexivity; try discriminate; eauto.
      by destruct H.
    + intros e w ->. by eexists.
  - rewrite (verifyCredentials_other s Hauth). split.
    + by intros lookup w ->.
    + intros e w ->. by eexists.
Qed.
End ClientFacts.

(** C7.  The constructor builds the client from the four user-context
    credentials exactly when the selector is ['oauth1']; for every other
    selector ('oauth2-app', 'oauth2-user', anything else, or none, which
    stands for 'oauth2-app') it builds it from the bearer token alone.  The
    read-only client is the read-only view of that client. *)
Theorem constructor_selects_credentials (config : TwitterConfig.t)
    (selector : option string) :
  let this := constructor {| TwitterClientOptions.config := config;
                             TwitterClientOptions.authMethod := selector |} in
  (selector = Some "oauth1" ->
   TwitterClient.client this =
     TwitterApi_tokens (TwitterConfig.apiKey config) (TwitterConfig.apiSecret config)
                       (TwitterConfig.accessToken config)
                       (TwitterConfig.accessTokenSecret config)) /\
  (selector <> Some "oauth1" ->
   TwitterClient.client this = TwitterApi_bearer (TwitterConfig.bearerToken config)) /\
  TwitterClient.readOnlyClient this = readOnly (TwitterClient.client this) /\
  TwitterClient.authMethod this = default "oauth2-app" selector /\
  TwitterClient.rateLimits this = [].
Proof.
  cbv zeta. unfold constructor. simpl. split; [|split; [|by repeat split]].
  - by intros ->.
  - intros Hne. destruct selector as [method|]; simpl; [|reflexivity].
    destruct (String.eqb_spec method "oauth2-app"); [reflexivity|].
    destruct (String.eqb_spec method "oauth1"); [congruence | reflexivity].
Qed.

Lemma constructor_selects_credentials_witness :
  TwitterClient.client
    (constructor {| TwitterClientOptions.config := Fixture.mockConfig;
                    TwitterClientOptions.authMethod := Some "oauth1" |})
  = TwitterApi_tokens "test-api-key" "test-api-secret" "test-access-token"
                      "test-access-token-secret" /\
  TwitterClient.client
    (constructor {| TwitterClientOptions.config := Fixture.mockConfig;
                    TwitterClientOptions.authMethod := Some "basic" |})
  = TwitterApi_bearer "test-bearer-token".
Proof.
  split.
  - apply (constructor_selects_credentials Fixture.mockConfig (Some "oauth1")).
    reflexivity.
  - apply (constructor_selects_credentials Fixture.mockConfig (Some "basic")).
    discriminate.
Defined.

(** ** The properties at the fixtures *)

Lemma operations_catch_client_errors_witness :
  fst (run Fixture.host (Fixture.rejecting Fixture.rateLimited) (GetTweet "missing")
         (Fixture.start None 0))
  = Returned (Post None).
Proof.
  apply (operations_catch_client_errors Fixture.host (Fixture.rejecting Fixture.rateLimited)
           (GetTweet "missing") (Fixture.start None 0)) with (e := Fixture.rateLimited).
  reflexivity.
Defined.

Lemma handled_failures_record_snapshot_witness :
  Map_get "getUserTweets"
    (rateLimitsOf
       (snd (run Fixture.host (Fixture.rejecting Fixture.rateLimited)
               (GetUserTweets "123" (UserTweetsOptions.mk None None None None))
               (Fixture.start None 0))))
  = Some {| RateLimitInfo.endpoint := "getUserTweets";
            RateLimitInfo.limit := 15;
            RateLimitInfo.remaining := 0;
            RateLimitInfo.reset := TimeValue 1704067200000 |}.
Proof.
  apply (handled_failures_record_snapshot Fixture.host
           (Fixture.rejecting Fixture.rateLimited)
           (GetUserTweets "123" (UserTweetsOptions.mk None None None None))
           (Fixture.start None 0)) with (e := Fixture.rateLimited)
                                        (rl := RateLimit.mk 15 0 1704067200);
    reflexivity.
Defined.

(** C2 as the claim words it fails twice.  For verifyCredentials: its
    probe is rejected with an [Error] carrying a rate-limit payload, the
    operation returns false, and no snapshot is recorded under any name.  And
    for a reset beyond the range of [Date]: getTweet fails with reset
    8640000000001, and the snapshot holds Invalid Date, not the timestamp
    8640000000001000. *)
Lemma snapshot_not_recorded_as_claimed :
  (let s := Fixture.start None 0 in
   let api := Fixture.rejecting Fixture.rateLimited in
   clientError Fixture.host api VerifyCredentials s = Some Fixture.rateLimited /\
   rateLimitOf Fixture.rateLimited = Some (RateLimit.mk 15 0 1704067200) /\
   fst (verifyCredentials api s) = Returned false /\
   fst (getRateLimitInfo "verifyCredentials" (snd (verifyCredentials api s)))
   = Returned None /\
   fst (getAllRateLimits (snd (verifyCredentials api s))) = Returned []) /\
  (let s := Fixture.start None 0 in
   let api := Fixture.rejecting Fixture.rateLimitedBeyondTime in
   clientError Fixture.host api (GetTweet "tweet1") s = Some Fixture.rateLimitedBeyondTime /\
   rateLimitOf Fixture.rateLimitedBeyondTime = Some (RateLimit.mk 15 0 8640000000001) /\
   fst (getRateLimitInfo "getTweet" (snd (getTweet Fixture.host api "tweet1" s)))
   = Returned (Some {| RateLimitInfo.endpoint := "getTweet";
                       RateLimitInfo.limit := 15;
                       RateLimitInfo.remaining := 0;
                       RateLimitInfo.reset := InvalidDate |}) /\
   InvalidDate <> TimeValue (8640000000001 * 1000)).
Proof.
  split.
  - repeat split; reflexivity.
  - split; [reflexivity|]. split; [reflexivity|]. split; [vm_compute; reflexivity|].
    discriminate.
Qed.

Lemma rateLimits_changed_only_by_handleError_witness :
  let s := Fixture.start None 0 in
  let thrown := OtherValue "{ rateLimit: ... }" (Truthy (RateLimit.mk 15 0 1704067200)) in
  rateLimitsOf (snd (run Fixture.host Fixture.mockApi (SearchTweets "test query"
                                                         (SearchOptions.mk None None)) s))
  = rateLimitsOf s /\
  rateLimitsOf (snd (run Fixture.host (Fixture.rejecting thrown) (GetUser "testuser") s))
  = rateLimitsOf s.
Proof.
  split.
  - apply (rateLimits_changed_only_by_handleError Fixture.host Fixture.mockApi
             (SearchTweets "test query" (SearchOptions.mk None None))
             (Fixture.start None 0)).
    reflexivity.
  - eapply (rateLimits_changed_only_by_handleError Fixture.host
              (Fixture.rejecting
                 (OtherValue "{ rateLimit: ... }" (Truthy (RateLimit.mk 15 0 1704067200))))
              (GetUser "testuser") (Fixture.start None 0)).
    reflexivity.
Defined.

Lemma verifyCredentials_probes_witness :
  verifyCredentials Fixture.mockApi (Fixture.start (Some "oauth1") 0)
  = (Returned true, Fixture.start (Some "oauth1") 0) /\
  verifyCredentials Fixture.mockApi (Fixture.start None 0)
  = (Returned true, Fixture.start None 0) /\
  fst (verifyCredentials (Fixture.rejecting Fixture.rateLimited) (Fixture.start None 0))
  = Returned false.
Proof.
  split; [|split].
  - destruct (proj1 (proj1 (verifyCredentials_probes Fixture.mockApi
                              (Fixture.start (Some "oauth1") 0)) eq_refl)
                Fixture.mockMe 0 eq_refl) as (ok & Hrun & Hok).
    rewrite Hrun. f_equal. f_equal. apply Hok. by eexists.
  - exact (proj1 (proj2 (verifyCredentials_probes Fixture.mockApi (Fixture.start None 0))
                     ltac:(discriminate))
             Fixture.mockTweets 0 eq_refl).
  - destruct (proj2 (proj2 (verifyCredentials_probes (Fixture.rejecting Fixture.rateLimited)
                              (Fixture.start None 0)) ltac:(discriminate))
                Fixture.rateLimited 0 eq_refl) as (s' & Hrun & _).
    by rewrite Hrun.
Defined.

Lemma mapTweet_defaults_witness :
  exists t s',
    mapTweet Fixture.host Fixture.replyTweet [] (Fixture.start None 1704067200000)
    = (Returned t, s') /\
    Tweet.createdAt t = TimeValue 1704067200000 /\
    Tweet.referencedTweets t =
      Some [ {| ReferencedTweet.type := "replied_to"; ReferencedTweet.id := "tweet1" |};
             {| ReferencedTweet.type := "mentioned"; ReferencedTweet.id := "tweet2" |} ].
Proof.
  destruct (mapTweet_defaults Fixture.host Fixture.replyTweet []
              (Fixture.start None 1704067200000))
    as (t & s' & Hrun & _ & _ & _ & _ & _ & _ & Hnow & _ & _ & Hrefs).
  exists t, s'. split; [exact Hrun|]. split.
  - apply Hnow. left. reflexivity.
  - destruct (Hrefs _ eq_refl) as (out & -> & Hlen & Hout).
    f_equal. destruct out as [|a [|b [|c out]]]; try discriminate.
    pose proof (Hout 0%nat _ eq_refl) as Ha. pose proof (Hout 1%nat _ eq_refl) as Hb.
    simpl in Ha, Hb. congruence.
Defined.

(** C3 as the claim words it fails for an unparsable timestamp: the post is
    mapped at clock reading 1704067200000, its timestamp does not parse, and
    its creation date is Invalid Date, not the clock reading. *)
Lemma mapTweet_unparsable_created_at :
  let s := Fixture.start None 1704067200000 in
  TweetV2.created_at Fixture.undatedTweet = Some "not a date" /\
  Host.Date_parse Fixture.host "not a date" = None /\
  fst (Host.Date_now Fixture.host (State.world s)) = 1704067200000 /\
  exists t s',
    mapTweet Fixture.host Fixture.undatedTweet [] s = (Returned t, s') /\
    Tweet.createdAt t = InvalidDate /\
    Tweet.createdAt t <> TimeValue 1704067200000.
Proof.
  repeat split; try reflexivity.
  eexists _, _. split; [reflexivity|]. split; [reflexivity | discriminate].
Qed.

Lemma mapped_counts_nonnegative_witness :
  exists t s',
    mapTweet Fixture.host Fixture.tweet2 [] (Fixture.start None 0) = (Returned t, s') /\
    0 <= TweetMetrics.likes (Tweet.metrics t) /\
    0 <= TweetMetrics.quotes (Tweet.metrics t).
Proof.
  destruct (proj1 (mapped_counts_nonnegative Fixture.host) Fixture.tweet2 []
              (Fixture.start None 0))
    as (t & s' & Hrun & _ & _ & _ & _ & _ & _ & Hlikes & _ & _ & _ & Hquotes & _).
  exists t, s'. split; [exact Hrun|]. split.
  - apply Hlikes. simpl. lia.
  - apply Hquotes. simpl. exact I.
Defined.

(** C5 as the claim words it fails for negative raw fields: a like count of
    -5 and a follower count of -1 are passed through. *)
Lemma negative_counts_pass_through :
  (exists t s',
      mapTweet Fixture.host Fixture.negativeTweet [] (Fixture.start None 0)
      = (Returned t, s') /\
      TweetMetrics.likes (Tweet.metrics t) = -5 /\
      ~ 0 <= TweetMetrics.likes (Tweet.metrics t)) /\
  (exists u s',
      mapUser Fixture.host Fixture.negativeUser (Fixture.start None 0) = (Returned u, s') /\
      TwitterUser.followersCount u = -1 /\
      ~ 0 <= TwitterUser.followersCount u).
Proof.
  split; eexists _, _; (split; [reflexivity|]); (split; [reflexivity|]); simpl; lia.
Qed.

(** C4 fails on the code: the post has the media key 3_1, the response
    includes the photo under that key, the media map built from the response
    holds it, and the post returned by getTweet, getUserTweets and
    searchTweets has no [media] all the same. *)
Lemma included_media_never_attached :
  let s := Fixture.start None 0 in
  TweetV2.attachments Fixture.photoTweet ≫= TweetAttachmentV2.media_keys = Some ["3_1"] /\
  Map_get "3_1" (mediaMap_of Fixture.photoIncludes) = Some Fixture.photo /\
  (exists t s', getTweet Fixture.host Fixture.photoApi "tweet3" s = (Returned (Some t), s') /\
                Tweet.media t = None) /\
  (exists t s' meta,
      getUserTweets Fixture.host Fixture.photoApi "123"
        (UserTweetsOptions.mk None None None None) s
      = (Returned (PaginatedResponse.mk [t] meta), s') /\
      Tweet.media t = None) /\
  (exists t s' meta,
      searchTweets Fixture.host Fixture.photoApi "photo" (SearchOptions.mk None None) s
      = (Returned (PaginatedResponse.mk [t] meta), s') /\
      Tweet.media t = None).
Proof.
  repeat split; try reflexivity; repeat eexists.
Qed.

(** ** The test suite, replayed on the embedding *)

Example test_load_config_with_all_required_variables :
  exists cfg,
    loadConfig (<["NODE_ENV" := "test"]> testEnv) = Returned cfg /\
    TwitterConfig.apiKey (AppConfig.twitter cfg) = "test-api-key" /\
    TwitterConfig.bearerToken (AppConfig.twitter cfg) = "test-bearer-token" /\
    AppConfig.environment (AppConfig.app cfg) = "test".
Proof. eexists. split; [vm_compute; reflexivity|]. repeat split. Qed.

Example test_throw_for_missing_required_variables :
  exists message,
    thrownMessage (loadConfig ∅) = Some message /\
    mentions message "Missing required environment variable" = true.
Proof. eexists. split; vm_compute; reflexivity. Qed.

Example test_verifyCredentials :
  fst (verifyCredentials Fixture.mockApi (Fixture.start (Some "oauth2-app") 0))
  = Returned true.
Proof. reflexivity. Qed.

Example test_getUser :
  exists user s',
    getUser Fixture.host Fixture.mockApi "testuser" (Fixture.start (Some "oauth2-app") 0)
    = (Returned (Some user), s') /\
    TwitterUser.username user = "testuser" /\
    TwitterUser.displayName user = "Test User" /\
    TwitterUser.followersCount user = 1000 /\
    TwitterUser.createdAt user = TimeValue 1577836800000.
Proof. eexists _, _. split; [reflexivity|]. repeat split. Qed.

Example test_getUserTweets :
  exists tweet meta s',
    getUserTweets Fixture.host Fixture.mockApi "123"
      (UserTweetsOptions.mk (Some 50) (Some "token123") None None)
      (Fixture.start (Some "oauth2-app") 0)
    = (Returned (PaginatedResponse.mk [tweet] meta), s') /\
    Tweet.id tweet = "tweet1" /\
    Tweet.text tweet = "Test tweet" /\
    TweetMetrics.likes (Tweet.metrics tweet) = 100 /\
    PaginatedResponse.nextToken meta = Some "next123".
Proof. eexists _, _, _. split; [reflexivity|]. repeat split. Qed.

Example test_getTweet :
  exists tweet s',
    getTweet Fixture.host Fixture.mockApi "tweet1" (Fixture.start (Some "oauth2-app") 0)
    = (Returned (Some tweet), s') /\
    Tweet.id tweet = "tweet1" /\
    Tweet.text tweet = "Test tweet" /\
    TweetMetrics.quotes (Tweet.metrics tweet) = 0.
Proof. eexists _, _. split; [reflexivity|]. repeat split. Qed.

Example test_searchTweets :
  exists tweet meta s',
    searchTweets Fixture.host Fixture.mockApi "test query" (SearchOptions.mk None None)
      (Fixture.start (Some "oauth2-app") 0)
    = (Returned (PaginatedResponse.mk [tweet] meta), s') /\
    Tweet.text tweet = "Search result tweet".
Proof. eexists _, _, _. split; reflexivity. Qed.

Example test_rate_limits_of_a_fresh_client :
  fst (getRateLimitInfo "unknown" (Fixture.start (Some "oauth2-app") 0)) = Returned None /\
  fst (getAllRateLimits (Fixture.start (Some "oauth2-app") 0)) = Returned [].
Proof. split; reflexivity. Qed.

(** Two operations fail one after the other, and the first fails again
    with a new payload: each name has its own entry, in the order of the
    first failures, and the second failure of getUserTweets replaces its
    entry where it stands. *)
Example failures_of_two_operations :
  let rejectedWith limit :=
    Fixture.rejecting
      (ErrorInstance "Too Many Requests" (Truthy (RateLimit.mk limit 0 1704067200))) in
  let noOptions := UserTweetsOptions.mk None None None None in
  let s1 := snd (getUserTweets Fixture.host (rejectedWith 15) "123" noOptions
                   (Fixture.start None 0)) in
  let s2 := snd (getTweet Fixture.host (rejectedWith 300) "tweet1" s1) in
  let s3 := snd (getUserTweets Fixture.host (rejectedWith 900) "123" noOptions s2) in
  (RateLimitInfo.limit <$> Map_get "getUserTweets" (rateLimitsOf s2)) = Some 15 /\
  (RateLimitInfo.limit <$> Map_get "getTweet" (rateLimitsOf s2)) = Some 300 /\
  map (fun info => (RateLimitInfo.endpoint info, RateLimitInfo.limit info))
      (Map_values (rateLimitsOf s3))
  = [("getUserTweets", 900); ("getTweet", 300)].
Proof. repeat split; reflexivity. Qed.

(** A time bound that is an Invalid Date: [toISOString] throws inside the
    [try], the library is never called, and the operation returns the empty
    page after logging the [RangeError]. *)
Example getUserTweets_invalid_startTime :
  getUserTweets Fixture.host Fixture.mockApi "123"
    (UserTweetsOptions.mk None None (Some InvalidDate) None) (Fixture.start None 0)
  = (Returned emptyPage,
     State.mk (constructor {| TwitterClientOptions.config := Fixture.mockConfig;
                              TwitterClientOptions.authMethod := None |})
       [[LogString "[TwitterClient.getUserTweets] Error:"; LogString "Invalid time value"]]
       0).
Proof. reflexivity. Qed.

Example fixture_dates :
  Fixture.Date_parse "2024-01-01T00:00:00.000Z" = Some 1704067200000 /\
  Fixture.Date_toISOString 1704067200000 = "2024-01-01T00:00:00.000Z" /\
  Fixture.Date_toISOString 1709210096789 = "2024-02-29T12:34:56.789Z" /\
  Fixture.Date_parse "2023-02-29T00:00:00.000Z" = Some 1677628800000 /\
  Fixture.Date_toISOString 1677628800000 = "2023-03-01T00:00:00.000Z" /\
  Fixture.Date_parse "2023-13-01T00:00:00.000Z" = None /\
  Fixture.Date_parse "not a date" = None.
Proof. repeat split; vm_compute; reflexivity. Qed.


(** ** Further properties of the configuration loader *)

Lemma allRequiredSet_false env :
  allRequiredSet env = false ->
  exists name, firstMissing env = Some name /\ name ∈ requiredVars /\ isSet env name = false.
Proof.
  intros Hnot. unfold firstMissing.
  destruct (List.find _ requiredVars) as [name|] eqn:Hfind.
  - apply List.find_some in Hfind as [Hin Hneg].
    exists name. split; [reflexivity|]. split.
    + by apply list_elem_of_In.
    + by apply negb_true_iff.
  - exfalso. unfold allRequiredSet in Hnot.
    assert (forallb (isSet env) requiredVars = true) as Hall; [|congruence].
    apply List.forallb_forall. intros name Hin.
    pose proof (List.find_none _ _ Hfind _ Hin) as Hn. simpl in Hn.
    by apply negb_false_iff.
Qed.

Lemma isSet_lookup env name :
  isSet env name = true ->
  env !! name = Some (nullish_string (env !! name) "") /\ nullish_string (env !! name) "" <> "".
Proof.
  unfold isSet. intros H. apply truthy_string_true in H as (v & -> & Hne). by split.
Qed.

(** A configuration that [loadConfig] returns holds, for each of the five
    credentials, the value of its variable as it is, and none of them is
    empty. *)
Theorem loaded_credentials_are_set (env : gmap string string) (cfg : AppConfig.t) :
  loadConfig env = Returned cfg ->
  let twitter := AppConfig.twitter cfg in
  Forall (fun '(name, value) => env !! name = Some value /\ value <> "")
    [ ("TWITTER_API_KEY", TwitterConfig.apiKey twitter);
      ("TWITTER_API_SECRET", TwitterConfig.apiSecret twitter);
      ("TWITTER_ACCESS_TOKEN", TwitterConfig.accessToken twitter);
      ("TWITTER_ACCESS_TOKEN_SECRET", TwitterConfig.accessTokenSecret twitter);
      ("TWITTER_BEARER_TOKEN", TwitterConfig.bearerToken twitter) ].
Proof.
  intros Hload. destruct (allRequiredSet env) eqn:Hset.
  - rewrite (allRequiredSet_loadConfig env Hset) in Hload. injection Hload as <-.
    unfold allRequiredSet, requiredVars in Hset. simpl in Hset.
    rewrite !andb_true_iff in Hset. destruct Hset as (H1 & H2 & H3 & H4 & H5 & _).
    cbv zeta. simpl. repeat (apply Forall_cons; split; [by apply isSet_lookup|]).
    apply Forall_nil_2.
  - destruct (allRequiredSet_false env Hset) as (name & Hfirst & _).
    rewrite (loadConfig_firstMissing env name Hfirst) in Hload. discriminate.
Qed.

Lemma loaded_credentials_are_set_witness :
  loadConfig testEnv =
    Returned (AppConfig.mk Fixture.mockConfig (AppConfig.mk_anthropic "")
                (AppConfig.mk_app "development" "info")) /\
  testEnv !! "TWITTER_BEARER_TOKEN" = Some "test-bearer-token" /\
  "test-bearer-token" <> "".
Proof.
  assert (loadConfig testEnv =
            Returned (AppConfig.mk Fixture.mockConfig (AppConfig.mk_anthropic "")
                        (AppConfig.mk_app "development" "info"))) as Hload
    by (vm_compute; reflexivity).
  split; [exact Hload|].
  pose proof (loaded_credentials_are_set testEnv _ Hload) as H.
  cbv zeta in H. rewrite !Forall_cons in H.
  destruct H as (_ & _ & _ & _ & H & _). exact H.
Defined.

(** [loadConfig] reads eight variables and no other: two environments that
    agree on those eight give the same result, configuration or error. *)
Theorem loadConfig_reads_only_configVars (env1 env2 : gmap string string) :
  (forall name, name ∈ configVars -> env1 !! name = env2 !! name) ->
  loadConfig env1 = loadConfig env2.
Proof.
  intros Hagree. unfold loadConfig, getEnvVar.
  rewrite !(Hagree "TWITTER_API_KEY"), !(Hagree "TWITTER_API_SECRET"),
    !(Hagree "TWITTER_ACCESS_TOKEN"), !(Hagree "TWITTER_ACCESS_TOKEN_SECRET"),
    !(Hagree "TWITTER_BEARER_TOKEN"), !(Hagree "ANTHROPIC_API_KEY"),
    !(Hagree "NODE_ENV"), !(Hagree "LOG_LEVEL") by compute_done.
  reflexivity.
Qed.

Lemma loadConfig_reads_only_configVars_witness :
  loadConfig (<["HOME" := "/root"]> testEnv) = loadConfig testEnv.
Proof.
  apply loadConfig_reads_only_configVars.
  intros name Hin. apply lookup_insert_ne. intros <-.
  assert ("HOME" ∉ configVars) as Hnot by compute_done. contradiction.
Defined.

(** ** Further properties of the wrapper *)

Section MoreMapFacts.
Context {V : Type}.
Implicit Types (m : list (string * V)) (k : string) (v : V).

Lemma Map_get_None_keys m k : Map_get k m = None <-> k ∉ Map_keys m.
Proof.
  induction m as [|[k' v'] m IH]; simpl.
  - split; [intros _; apply not_elem_of_nil | reflexivity].
  - rewrite not_elem_of_cons. destruct (String.eqb_spec k' k) as [->|Hne].
    + split; [discriminate | intros [Hk _]; congruence].
    + rewrite IH. split; [intros H; split; [congruence | exact H] | by intros [_ H]].
Qed.



Lemma Map_set_Forall (P : string * V -> Prop) m k v :
  P (k, v) -> Forall P m -> Forall P (Map_set k v m).
Proof.
  intros Hkv. induction m as [|[k' v'] m IH]; simpl; intros Hm.
  - by constructor.
  - apply Forall_cons in Hm as [Hhd Htl].
    destruct (String.eqb_spec k' k); constructor; auto.
Qed.

Lemma Map_get_elem_of m k v : Map_get k m = Some v -> (k, v) ∈ m.
Proof.
  induction m as [|[k' v'] m IH]; simpl; [discriminate|].
  destruct (String.eqb_spec k' k) as [->|Hne].
  - intros [= ->]. apply list_elem_of_here.
  - intros H. apply list_elem_of_further. by apply IH.
Qed.

Lemma elem_of_Map_get m k v : NoDup (Map_keys m) -> (k, v) ∈ m -> Map_get k m = Some v.
Proof.
  induction m as [|[k' v'] m IH]; simpl; intros Hnd Hin.
  - by apply elem_of_nil in Hin.
  - apply NoDup_cons in Hnd as [Hnotin Hnd].
    apply elem_of_cons in Hin as [[= <- <-]|Hin].
    + by rewrite String.eqb_refl.
    + destruct (String.eqb_spec k' k) as [->|Hne]; [|by apply IH].
      exfalso. apply Hnotin. unfold Map_keys.
      change k with (fst (k, v)). by apply list_elem_of_fmap_2.
Qed.
End MoreMapFacts.

Section MoreClientFacts.
Context {World : Type}.
Variable host : Host.t World.
Variable api : TwitterApiV2.t World.
Implicit Types (s : State.t World) (e : JsValue) (w : World).

Lemma handleError_handled e context s :
  handleError e context s = (Returned tt, handled context e s).
Proof.
  destruct s as [[c r m a] console w].
  destruct e as [message [| |rl]|shown rl]; reflexivity.
Qed.

Lemma handled_without_payload context e s :
  rateLimitOf e = None ->
  handled context e s =
    State.mk (State.this s) (State.console s ++ [handleErrorLine context e]) (State.world s).
Proof.
  intros He. unfold handled. rewrite He. by destruct s as [[c r m a] console w].
Qed.

(** The [catch] clause of the five reporting operations, to the state. *)
Lemma awaiting_operation_rejected {A B}
    (call : TwitterClient.t -> World -> Outcome A * World)
    (rest : TwitterClient.t -> A -> M B) context (benign : B) s e w :
  call (State.this s) (State.world s) = (Threw e, w) ->
  try_catch (bind get_this (fun this => bind (await (call this)) (rest this)))
    (fun error => bind (handleError error context) (fun _ => ret benign)) s
  = (Returned benign, handled context e (withWorld s w)).
Proof.
  intros Hcall. unfold try_catch, bind, get_this, await. rewrite Hcall.
  by rewrite handleError_handled.
Qed.

Lemma getUserTweets_rejected userId options s start_time end_time e w :
  optional_toISOString host (UserTweetsOptions.startTime options) = Returned start_time ->
  optional_toISOString host (UserTweetsOptions.endTime options) = Returned end_time ->
  TwitterApiV2.userTimeline api (TwitterClient.readOnlyClient (State.this s)) userId
    (timelineParams options start_time end_time) (State.world s) = (Threw e, w) ->
  getUserTweets host api userId options s
  = (Returned emptyPage, handled "getUserTweets" e (withWorld s w)).
Proof.
  intros Hstart Hend Hcall.
  unfold getUserTweets, try_catch, bind, get_this, lift, await.
  rewrite Hstart, Hend, Hcall. by rewrite handleError_handled.
Qed.

Lemma getUserTweets_uncalled userId options s :
  UserTweetsOptions.startTime options = Some InvalidDate \/
  UserTweetsOptions.endTime options = Some InvalidDate ->
  getUserTweets host api userId options s
  = (Returned emptyPage, handled "getUserTweets" (ErrorInstance "Invalid time value" NotIn) s).
Proof.
  intros Hbound. destruct s as [[c r m a] console w].
  unfold getUserTweets, try_catch, bind, get_this, lift, await.
  destruct (UserTweetsOptions.startTime options) as [[t1|]|] eqn:Hstart;
    destruct (UserTweetsOptions.endTime options) as [[t2|]|] eqn:Hend;
    simpl; try reflexivity;
    destruct Hbound as [H|H]; discriminate.
Qed.

Lemma optional_toISOString_Threw d e :
  optional_toISOString host d = Threw e <->
  d = Some InvalidDate /\ e = ErrorInstance "Invalid time value" NotIn.
Proof.
  destruct d as [[t|]|]; simpl.
  - split; [discriminate | intros [[=] _]].
  - split; [intros [= <-]; by split | by intros [_ ->]].
  - split; [discriminate | intros [[=] _]].
Qed.

(** Every operation, by what became of its library call. *)
Lemma run_cases op s :
  match clientCall host api op s with
  | Some (Some e, w) =>
      run host api op s = (Returned (failureResult op), failed op e (withWorld s w))
  | Some (None, w) =>
      exists r s', run host api op s = (Returned r, s') /\ sameInstance s s'
  | None =>
      run host api op s
      = (Returned (failureResult op),
         handled (contextOf op) (ErrorInstance "Invalid time value" NotIn) s)
  end.
Proof.
  destruct op as [|username|userId|userId options|tweetId|query options];
    unfold run, clientCall, ending, failed; cbv zeta.
  - destruct (String.eqb_spec (TwitterClient.authMethod (State.this s)) "oauth1")
      as [Hauth|Hauth].
    + rewrite (verifyCredentials_oauth1 api s Hauth).
      destruct (TwitterApiV2.me _ _ _) as [[me|e] w]; simpl; [|reflexivity].
      eexists _, _. split; [reflexivity | apply sameInstance_withWorld].
    + rewrite (verifyCredentials_other api s Hauth).
      destruct (TwitterApiV2.tweets _ _ _ _) as [[r|e] w]; simpl; [|reflexivity].
      eexists _, _. split; [reflexivity | apply sameInstance_withWorld].
  - pose proof (getUser_cases host api username s) as H.
    destruct (TwitterApiV2.userByUsername _ _ _ _ _) as [[r|e] w] eqn:Hcall; simpl.
    + destruct H as (u & s' & -> & Hsame). by exists (User u), s'.
    + unfold getUser.
      by rewrite (awaiting_operation_rejected _ _ "getUser" None s e w Hcall).
  - pose proof (getUserById_cases host api userId s) as H.
    destruct (TwitterApiV2.user _ _ _ _ _) as [[r|e] w] eqn:Hcall; simpl.
    + destruct H as (u & s' & -> & Hsame). by exists (User u), s'.
    + unfold getUserById.
      by rewrite (awaiting_operation_rejected _ _ "getUserById" None s e w Hcall).
  - pose proof (getUserTweets_cases host api userId options s) as H.
    destruct (optional_toISOString host (UserTweetsOptions.startTime options))
      as [start_time|e1] eqn:Hstart;
      [destruct (optional_toISOString host (UserTweetsOptions.endTime options))
         as [end_time|e2] eqn:Hend |].
    + destruct (TwitterApiV2.userTimeline _ _ _ _ _) as [[r|e] w] eqn:Hcall; simpl.
      * destruct H as (page & s' & -> & _ & Hsame). by exists (Page page), s'.
      * by rewrite (getUserTweets_rejected userId options s _ _ e w Hstart Hend Hcall).
    + apply optional_toISOString_Threw in Hend as [Hend _].
      rewrite (getUserTweets_uncalled userId options s); [reflexivity | by right].
    + apply optional_toISOString_Threw in Hstart as [Hstart _].
      rewrite (getUserTweets_uncalled userId options s); [reflexivity | by left].
  - pose proof (getTweet_cases host api tweetId s) as H.
    destruct (TwitterApiV2.singleTweet _ _ _ _ _) as [[r|e] w] eqn:Hcall; simpl.
    + destruct H as (t & s' & -> & _ & Hsame). by exists (Post t), s'.
    + unfold getTweet.
      by rewrite (awaiting_operation_rejected _ _ "getTweet" None s e w Hcall).
  - pose proof (searchTweets_cases host api query options s) as H.
    destruct (TwitterApiV2.search _ _ _ _ _) as [[r|e] w] eqn:Hcall; simpl.
    + destruct H as (page & s' & -> & _ & Hsame). by exists (Page page), s'.
    + unfold searchTweets.
      by rewrite (awaiting_operation_rejected _ _ "searchTweets" emptyPage s e w Hcall).
Qed.
End MoreClientFacts.

Section MoreClientTheorems.
Context {World : Type}.
Variable host : Host.t World.
Variable api : TwitterApiV2.t World.
Implicit Types (s : State.t World) (e : JsValue) (w : World).

(** No operation, whatever becomes of it, replaces the client, the read-only
    client or the auth method of the instance. *)
Theorem operations_keep_client_handles (op : Operation) (s : State.t World) :
  let this := State.this s in
  let this' := State.this (snd (run host api op s)) in
  TwitterClient.client this' = TwitterClient.client this /\
  TwitterClient.readOnlyClient this' = TwitterClient.readOnlyClient this /\
  TwitterClient.authMethod this' = TwitterClient.authMethod this.
Proof.
  cbv zeta. pose proof (run_cases host api op s) as H.
  destruct (clientCall host api op s) as [[[e|] w]|].
  - rewrite H. unfold failed. by destruct (usesHandleError op).
  - destruct H as (r & s' & -> & Hthis & _). simpl. by rewrite Hthis.
  - by rewrite H.
Qed.

(** An operation whose library call resolves writes nothing to the console
    and leaves the instance, rate limits included, as it was. *)
Theorem resolved_operations_are_silent (op : Operation) (s : State.t World) (w : World) :
  clientCall host api op s = Some (None, w) ->
  State.console (snd (run host api op s)) = State.console s /\
  State.this (snd (run host api op s)) = State.this s.
Proof.
  intros Hcall. pose proof (run_cases host api op s) as H. rewrite Hcall in H.
  destruct H as (r & s' & -> & Hthis & Hconsole). by split.
Qed.

(** An operation whose library call is rejected with [e] adds one line to
    the console and nothing else, and ends in the world the call left.  The
    five reporting operations write their name in brackets, then the message
    of an [Error] instance, or "Unknown error:" and the value itself for
    anything else; verifyCredentials writes its own line with the value. *)
Theorem failed_operations_log_one_line (op : Operation) (s : State.t World)
    (e : JsValue) (w : World) :
  clientCall host api op s = Some (Some e, w) ->
  let s' := snd (run host api op s) in
  State.world s' = w /\
  State.console s' =
    (State.console s ++
       [ match op, e with
         | VerifyCredentials, _ =>
             [ LogString "Credential verification failed:"; LogValue e ]
         | _, ErrorInstance message _ =>
             [ LogString ("[TwitterClient." +:+ contextOf op +:+ "] Error:");
               LogString message ]
         | _, OtherValue _ _ =>
             [ LogString ("[TwitterClient." +:+ contextOf op +:+ "] Unknown error:");
               LogValue e ]
         end ])%list.
Proof.
  intros Hcall. cbv zeta. pose proof (run_cases host api op s) as H.
  rewrite Hcall in H. rewrite H.
  destruct op; destruct e; by split.
Qed.

(** getUserTweets with a start or end time that is an Invalid Date makes
    no call into the library at all: it returns the empty page, logs the
    [RangeError] of [toISOString], and records no snapshot. *)
Theorem getUserTweets_invalid_time_bound (userId : string)
    (options : UserTweetsOptions.t) (s : State.t World) :
  UserTweetsOptions.startTime options = Some InvalidDate \/
  UserTweetsOptions.endTime options = Some InvalidDate ->
  getUserTweets host api userId options s =
    (Returned {| PaginatedResponse.data := [];
                 PaginatedResponse.meta :=
                   {| PaginatedResponse.nextToken := None;
                      PaginatedResponse.previousToken := None;
                      PaginatedResponse.resultCount := 0 |} |},
     State.mk (State.this s)
       (State.console s ++
          [[ LogString "[TwitterClient.getUserTweets] Error:";
             LogString "Invalid time value" ]])
       (State.world s)).
Proof.
  intros Hbound. rewrite (getUserTweets_uncalled host api userId options s Hbound).
  by rewrite handled_without_payload.
Qed.
End MoreClientTheorems.

Lemma resolved_operations_are_silent_witness :
  State.console (snd (run Fixture.host Fixture.mockApi (GetUser "testuser")
                        (Fixture.start None 0))) = [].
Proof.
  apply (resolved_operations_are_silent Fixture.host Fixture.mockApi (GetUser "testuser")
           (Fixture.start None 0) 0).
  reflexivity.
Defined.

Lemma failed_operations_log_one_line_witness :
  State.console
    (snd (run Fixture.host (Fixture.rejecting (OtherValue "'timeout'" NotIn))
            (SearchTweets "test query" (SearchOptions.mk None None))
            (Fixture.start None 0)))
  = [[ LogString "[TwitterClient.searchTweets] Unknown error:";
       LogValue (OtherValue "'timeout'" NotIn) ]].
Proof.
  apply (failed_operations_log_one_line Fixture.host
           (Fixture.rejecting (OtherValue "'timeout'" NotIn))
           (SearchTweets "test query" (SearchOptions.mk None None))
           (Fixture.start None 0) (OtherValue "'timeout'" NotIn) 0).
  reflexivity.
Defined.

Lemma getUserTweets_invalid_time_bound_witness :
  fst (getUserTweets Fixture.host Fixture.mockApi "123"
         (UserTweetsOptions.mk None None None (Some InvalidDate)) (Fixture.start None 0))
  = Returned emptyPage.
Proof.
  rewrite (getUserTweets_invalid_time_bound Fixture.host Fixture.mockApi "123"
             (UserTweetsOptions.mk None None None (Some InvalidDate))
             (Fixture.start None 0)).
  - reflexivity.
  - right. reflexivity.
Defined.

Lemma or_string_default (v : option string) : or_string v "" = default "" v.
Proof.
  destruct v as [str|]; [|reflexivity]. unfold or_string, truthy_string.
  by destruct (String.eqb_spec str "") as [->|].
Qed.

Lemma or_bool_default (v : option bool) : or_bool v false = default false v.
Proof. by destruct v as [[|]|]. Qed.

Section Lookups.
Context {World : Type}.
Variable host : Host.t World.
Variable api : TwitterApiV2.t World.
Implicit Types (s : State.t World) (e : JsValue) (w : World).

Lemma Array_map_Forall2 {A B} (f : A -> M (World:=World) B) (R : A -> B -> Prop) xs :
  (forall x s y s', f x s = (Returned y, s') -> R x y) ->
  forall s ys s', Array_map f xs s = (Returned ys, s') -> Forall2 R xs ys.
Proof.
  intros Hf. induction xs as [|x xs IH]; simpl; intros s ys s' Hrun.
  - injection Hrun as <- _. constructor.
  - unfold bind in Hrun.
    destruct (f x s) as [[y|e] s1] eqn:Hx; [|discriminate].
    destruct (Array_map f xs s1) as [[ys'|e] s2] eqn:Hxs; [|discriminate].
    injection Hrun as <- _. constructor; eauto.
Qed.

Lemma mapTweet_sameTweet tweet mediaMap s t s' :
  mapTweet host tweet mediaMap s = (Returned t, s') -> sameTweet tweet t.
Proof.
  destruct (mapTweet_run host tweet mediaMap s) as (d & s1 & _ & _ & Hrun).
  rewrite Hrun. intros [= <- _]. unfold sameTweet. simpl.
  by rewrite or_string_default.
Qed.

Lemma mapUser_sameUser user s u s' :
  mapUser host user s = (Returned u, s') -> sameUser user u.
Proof.
  destruct (mapUser_run host user s) as (d & s1 & _ & _ & Hrun).
  rewrite Hrun. by intros [= <- _].
Qed.

Lemma pageResult_page previous response s page s' :
  pageResult host previous response s = (Returned page, s') ->
  Forall2 sameTweet
    (or_object (TweetPaginator.data response ≫= TweetPaginator.tweets) [])
    (PaginatedResponse.data page) /\
  PaginatedResponse.meta page =
    {| PaginatedResponse.nextToken := TweetPaginator.meta response ≫= Meta.next_token;
       PaginatedResponse.previousToken :=
         if previous then TweetPaginator.meta response ≫= Meta.previous_token else None;
       PaginatedResponse.resultCount :=
         default 0 (TweetPaginator.meta response ≫= Meta.result_count) |}.
Proof.
  unfold pageResult, bind.
  destruct (Array_map _ _ s) as [[data|e] s1] eqn:Hmap; [|discriminate].
  intros [= <- _]. simpl. rewrite or_number_default. split; [|reflexivity].
  eapply Array_map_Forall2; [|exact Hmap].
  intros x sx y sy. apply mapTweet_sameTweet.
Qed.

(** A user lookup and a post lookup return null exactly when the response
    has no data, and then nothing is logged and no snapshot is taken; with
    data they return the mapped profile or post, which has the id, the
    handle and the display name, or the id, the text and the author, of the
    raw one. *)
Theorem lookups_null_iff_no_data (s : State.t World) (w : World) :
  let ro := TwitterClient.readOnlyClient (State.this s) in
  (forall username r,
      TwitterApiV2.userByUsername api ro username
        {| UserParams.user_fields := userFields |} (State.world s) = (Returned r, w) ->
      exists res s',
        getUser host api username s = (Returned res, s') /\
        (UserV2Result.data r = None -> res = None /\ s' = withWorld s w) /\
        (forall raw, UserV2Result.data r = Some raw ->
                     exists user, res = Some user /\ sameUser raw user)) /\
  (forall userId r,
      TwitterApiV2.user api ro userId
        {| UserParams.user_fields := userFields |} (State.world s) = (Returned r, w) ->
      exists res s',
        getUserById host api userId s = (Returned res, s') /\
        (UserV2Result.data r = None -> res = None /\ s' = withWorld s w) /\
        (forall raw, UserV2Result.data r = Some raw ->
                     exists user, res = Some user /\ sameUser raw user)) /\
  (forall tweetId r,
      TwitterApiV2.singleTweet api ro tweetId
        {| SingleTweetParams.tweet_fields := tweetFields;
           SingleTweetParams.media_fields := mediaFields;
           SingleTweetParams.expansions := tweetExpansions |} (State.world s)
      = (Returned r, w) ->
      exists res s',
        getTweet host api tweetId s = (Returned res, s') /\
        (TweetV2SingleResult.data r = None -> res = None /\ s' = withWorld s w) /\
        (forall raw, TweetV2SingleResult.data r = Some raw ->
                     exists tweet, res = Some tweet /\ sameTweet raw tweet)).
Proof.
  cbv zeta. split; [|split].
  - intros username r Hcall.
    unfold getUser, try_catch, bind, get_this, await. rewrite Hcall.
    destruct (UserV2Result.data r) as [raw|].
    + destruct (mapUser host raw (State.mk (State.this s) (State.console s) w))
        as [[user|e] s'] eqn:Hmap.
      * eexists _, _. split; [reflexivity|]. split; [discriminate|].
        intros raw' [= <-]. exists user. split; [reflexivity|].
        by eapply mapUser_sameUser.
      * destruct (quiet_mapUser host raw (State.mk (State.this s) (State.console s) w))
          as (u' & s'' & Hrun & _). congruence.
    + eexists _, _. split; [reflexivity|]. split; [by split | discriminate].
  - intros userId r Hcall.
    unfold getUserById, try_catch, bind, get_this, await. rewrite Hcall.
    destruct (UserV2Result.data r) as [raw|].
    + destruct (mapUser host raw (State.mk (State.this s) (State.console s) w))
        as [[user|e] s'] eqn:Hmap.
      * eexists _, _. split; [reflexivity|]. split; [discriminate|].
        intros raw' [= <-]. exists user. split; [reflexivity|].
        by eapply mapUser_sameUser.
      * destruct (quiet_mapUser host raw (State.mk (State.this s) (State.console s) w))
          as (u' & s'' & Hrun & _). congruence.
    + eexists _, _. split; [reflexivity|]. split; [by split | discriminate].
  - intros tweetId r Hcall.
    unfold getTweet, try_catch, bind, get_this, await. rewrite Hcall.
    destruct (TweetV2SingleResult.data r) as [raw|].
    + destruct (mapTweet host raw _ (State.mk (State.this s) (State.console s) w))
        as [[tweet|e] s'] eqn:Hmap.
      * eexists _, _. split; [reflexivity|]. split; [discriminate|].
        intros raw' [= <-]. exists tweet. split; [reflexivity|].
        by eapply mapTweet_sameTweet.
      * destruct (quiet_mapTweet host raw
                    (mediaMap_of (TweetV2SingleResult.includes r))
                    (State.mk (State.this s) (State.console s) w))
          as (u' & s'' & Hrun & _). congruence.
    + eexists _, _. split; [reflexivity|]. split; [by split | discriminate].
Qed.

(** A page of getUserTweets or searchTweets has one post for each raw post
    of the response, in the same order and with the same id, text and
    author, and none when the response has no posts.  The cursors are those
    of the response as they are, except that searchTweets gives no previous
    cursor; resultCount is the count the response states, or 0 when it
    states none, and is not recomputed from the posts. *)
Theorem pages_preserve_posts (s : State.t World) (w : World) (r : TweetPaginator.t) :
  let ro := TwitterClient.readOnlyClient (State.this s) in
  let raws := default [] (TweetPaginator.data r ≫= TweetPaginator.tweets) in
  (forall userId options start_time end_time,
      optional_toISOString host (UserTweetsOptions.startTime options) = Returned start_time ->
      optional_toISOString host (UserTweetsOptions.endTime options) = Returned end_time ->
      TwitterApiV2.userTimeline api ro userId (timelineParams options start_time end_time)
        (State.world s) = (Returned r, w) ->
      exists page s',
        getUserTweets host api userId options s = (Returned page, s') /\
        Forall2 sameTweet raws (PaginatedResponse.data page) /\
        PaginatedResponse.meta page =
          {| PaginatedResponse.nextToken := TweetPaginator.meta r ≫= Meta.next_token;
             PaginatedResponse.previousToken := TweetPaginator.meta r ≫= Meta.previous_token;
             PaginatedResponse.resultCount :=
               default 0 (TweetPaginator.meta r ≫= Meta.result_count) |}) /\
  (forall query options,
      TwitterApiV2.search api ro query (searchParams options) (State.world s)
      = (Returned r, w) ->
      exists page s',
        searchTweets host api query options s = (Returned page, s') /\
        Forall2 sameTweet raws (PaginatedResponse.data page) /\
        PaginatedResponse.meta page =
          {| PaginatedResponse.nextToken := TweetPaginator.meta r ≫= Meta.next_token;
             PaginatedResponse.previousToken := None;
             PaginatedResponse.resultCount :=
               default 0 (TweetPaginator.meta r ≫= Meta.result_count) |}).
Proof.
  cbv zeta. split.
  - intros userId options start_time end_time Hstart Hend Hcall.
    pose proof (getUserTweets_cases host api userId options s) as H.
    rewrite Hstart, Hend, Hcall in H. destruct H as (page & s' & Hrun & Hpage & _).
    exists page, s'. split; [exact Hrun|].
    apply pageResult_page in Hpage as [Hdata Hmeta]. split; [|exact Hmeta].
    by destruct (TweetPaginator.data r ≫= TweetPaginator.tweets).
  - intros query options Hcall.
    pose proof (searchTweets_cases host api query options s) as H.
    rewrite Hcall in H. destruct H as (page & s' & Hrun & Hpage & _).
    exists page, s'. split; [exact Hrun|].
    apply pageResult_page in Hpage as [Hdata Hmeta]. split; [|exact Hmeta].
    by destruct (TweetPaginator.data r ≫= TweetPaginator.tweets).
Qed.

(** [mapUser] always returns.  Id, handle and display name are those of the
    raw profile; an absent or empty bio and avatar url become the empty
    string, an absent verified flag false; the creation date follows the
    rule of the post mapping: the clock reading for an absent or empty
    timestamp, what [Date.parse] makes of it otherwise. *)
Theorem mapUser_defaults (user : UserV2.t) (s : State.t World) :
  exists u s',
    mapUser host user s = (Returned u, s') /\
    sameUser user u /\
    TwitterUser.description u = default "" (UserV2.description user) /\
    TwitterUser.profileImageUrl u = default "" (UserV2.profile_image_url user) /\
    TwitterUser.verified u = default false (UserV2.verified user) /\
    (UserV2.created_at user = None \/ UserV2.created_at user = Some "" ->
     TwitterUser.createdAt u = TimeValue (fst (Host.Date_now host (State.world s)))) /\
    (forall str, UserV2.created_at user = Some str -> str <> "" ->
                 TwitterUser.createdAt u = match Host.Date_parse host str with
                                           | Some ms => TimeValue ms
                                           | None => InvalidDate
                                           end).
Proof.
  destruct (mapUser_run host user s) as (d & s' & Hdate & _ & Hrun).
  eexists _, s'. split; [exact Hrun|]. simpl.
  rewrite !or_string_default, or_bool_default.
  split; [by repeat split|]. do 3 (split; [reflexivity|]). split.
  - intros Habsent. rewrite (createdAt_of_absent host _ s Habsent) in Hdate.
    by injection Hdate as <- _.
  - intros str Hstr Hne. rewrite Hstr, (createdAt_of_present host str s Hne) in Hdate.
    by injection Hdate as <- _.
Qed.
End Lookups.

Lemma lookups_null_iff_no_data_witness :
  getTweet Fixture.host Fixture.notFoundApi "missing" (Fixture.start None 0)
  = (Returned None, Fixture.start None 0) /\
  exists user s',
    getUser Fixture.host Fixture.mockApi "testuser" (Fixture.start None 0)
    = (Returned (Some user), s') /\
    TwitterUser.username user = "testuser".
Proof.
  split.
  - destruct (proj2 (proj2 (lookups_null_iff_no_data Fixture.host Fixture.notFoundApi
                              (Fixture.start None 0) 0))
                "missing" _ eq_refl) as (res & s' & Hrun & Hnone & _).
    destruct (Hnone eq_refl) as [-> ->]. exact Hrun.
  - destruct (proj1 (lookups_null_iff_no_data Fixture.host Fixture.mockApi
                       (Fixture.start None 0) 0)
                "testuser" _ eq_refl) as (res & s' & Hrun & _ & Hsome).
    destruct (Hsome _ eq_refl) as (user & -> & _ & Hname & _).
    by exists user, s'.
Defined.

Lemma pages_preserve_posts_witness :
  exists page s',
    searchTweets Fixture.host Fixture.notFoundApi "nothing" (SearchOptions.mk None None)
      (Fixture.start None 0)
    = (Returned page, s') /\
    PaginatedResponse.data page = [] /\
    PaginatedResponse.meta page =
      {| PaginatedResponse.nextToken := Some "more";
         PaginatedResponse.previousToken := None;
         PaginatedResponse.resultCount := 0 |}.
Proof.
  destruct (proj2 (pages_preserve_posts Fixture.host Fixture.notFoundApi
                     (Fixture.start None 0) 0 Fixture.morePages)
              "nothing" (SearchOptions.mk None None) eq_refl)
    as (page & s' & Hrun & Hdata & Hmeta).
  exists page, s'. split; [exact Hrun|]. split; [|exact Hmeta].
  simpl in Hdata. by inversion Hdata.
Defined.

Lemma mapUser_defaults_witness :
  exists u s',
    mapUser Fixture.host Fixture.negativeUser (Fixture.start None 1704067200000)
    = (Returned u, s') /\
    TwitterUser.description u = "" /\
    TwitterUser.verified u = false /\
    TwitterUser.createdAt u = TimeValue 1704067200000.
Proof.
  destruct (mapUser_defaults Fixture.host Fixture.negativeUser
              (Fixture.start None 1704067200000))
    as (u & s' & Hrun & _ & Hbio & _ & Hverified & Hnow & _).
  exists u, s'. split; [exact Hrun|]. split; [exact Hbio|]. split; [exact Hverified|].
  apply Hnow. by left.
Defined.

(** ** The rate limits over a sequence of operations *)

Lemma contextOf_handled op : usesHandleError op = true -> contextOf op ∈ handledNames.
Proof. destruct op; simpl; intros H; try discriminate; compute_done. Qed.

Lemma wellKeyed_set m context rl :
  context ∈ handledNames -> wellKeyed m ->
  wellKeyed (Map_set context (snapshotOf context rl) m).
Proof.
  intros Hname [Hnodup Hall]. split.
  - by apply Map_set_NoDup.
  - by apply Map_set_Forall.
Qed.

Lemma wellKeyed_endpoints m :
  wellKeyed m -> map RateLimitInfo.endpoint (Map_values m) = Map_keys m.
Proof.
  intros [_ Hall]. unfold Map_values, Map_keys.
  induction Hall as [|[k v] m [Hk _] _ IH]; simpl in *; [reflexivity|]. by rewrite Hk, IH.
Qed.

Lemma wellKeyed_names m : wellKeyed m -> Forall (fun k => k ∈ handledNames) (Map_keys m).
Proof.
  intros [_ Hall]. unfold Map_keys.
  induction Hall as [|[k v] m [_ Hk] _ IH]; simpl in *; constructor; assumption.
Qed.

Section SequenceFacts.
Context {World : Type}.
Variable host : Host.t World.
Variable api : TwitterApiV2.t World.
Implicit Types (s : State.t World) (e : JsValue) (w : World).

Lemma run_rateLimits op s :
  rateLimitsOf (snd (run host api op s)) = rateLimitsOf s \/
  (usesHandleError op = true /\
   exists rl, rateLimitsOf (snd (run host api op s))
              = Map_set (contextOf op) (snapshotOf (contextOf op) rl) (rateLimitsOf s)).
Proof.
  destruct (operation_summary host api op s) as (r & s' & Hrun & Hsum).
  rewrite Hrun. simpl. destruct (clientError host api op s) as [e|]; [|by left].
  destruct Hsum as [_ Hsum]. destruct (usesHandleError op).
  - destruct Hsum as [_ Hrec]. destruct (rateLimitOf e) as [rl|].
    + right. split; [reflexivity|]. exists rl. by destruct Hrec.
    + by left.
  - left. by destruct Hsum.
Qed.

Lemma runAll_wellKeyed ops s :
  wellKeyed (rateLimitsOf s) -> wellKeyed (rateLimitsOf (runAll host api ops s)).
Proof.
  revert s. induction ops as [|op ops IH]; simpl; intros s Hs; [exact Hs|].
  apply IH. destruct (run_rateLimits op s) as [->|[Huses [rl ->]]]; [exact Hs|].
  apply wellKeyed_set; [by apply contextOf_handled | exact Hs].
Qed.

Lemma fresh_wellKeyed options console w :
  wellKeyed (rateLimitsOf (State.mk (constructor options) console w)).
Proof. split; simpl; constructor. Qed.

(** Whatever operations a fresh wrapper has run, in whatever order and
    with whatever outcome, getAllRateLimits returns at most five snapshots,
    no two for the same endpoint, each for one of the five reporting
    operations; there is none for verifyCredentials. *)
Theorem rateLimits_stay_wellKeyed (options : TwitterClientOptions.t)
    (console : list (list LogArg)) (w : World) (ops : list Operation) :
  let s := runAll host api ops (State.mk (constructor options) console w) in
  exists all,
    fst (getAllRateLimits s) = Returned all /\
    (length all <= 5)%nat /\
    NoDup (map RateLimitInfo.endpoint all) /\
    Forall (fun info => RateLimitInfo.endpoint info ∈ handledNames) all /\
    fst (getRateLimitInfo "verifyCredentials" s) = Returned None.
Proof.
  cbv zeta.
  pose proof (runAll_wellKeyed ops _ (fresh_wellKeyed options console w)) as Hwell.
  set (s := runAll host api ops _) in *.
  exists (Map_values (rateLimitsOf s)). split; [reflexivity|].
  pose proof (wellKeyed_endpoints _ Hwell) as Hends.
  pose proof (wellKeyed_names _ Hwell) as Hnames.
  destruct Hwell as [Hnodup Hall].
  assert (Map_keys (rateLimitsOf s) ⊆+ handledNames) as Hsub.
  { apply NoDup_submseteq; [exact Hnodup|]. intros k Hk.
    by eapply (proj1 (Forall_forall _ _) Hnames). }
  split; [|split; [|split]].
  - apply submseteq_length in Hsub.
    rewrite <- Hends, length_map in Hsub. exact Hsub.
  - by rewrite Hends.
  - pose proof Hnames as Hends'. rewrite <- Hends in Hends'.
    by apply Forall_fmap in Hends'.
  - unfold getRateLimitInfo, bind, get_this, ret. simpl. f_equal.
    apply Map_get_None_keys. intros Hin.
    apply (proj1 (Forall_forall _ _) Hnames) in Hin. revert Hin. compute_done.
Qed.

(** On a wrapper that started fresh the two queries agree: getRateLimitInfo
    returns a snapshot for a name exactly when getAllRateLimits lists that
    snapshot and its endpoint is that name. *)
Theorem rateLimit_queries_agree (options : TwitterClientOptions.t)
    (console : list (list LogArg)) (w : World) (ops : list Operation)
    (name : string) (info : RateLimitInfo.t) :
  let s := runAll host api ops (State.mk (constructor options) console w) in
  fst (getRateLimitInfo name s) = Returned (Some info) <->
  exists all,
    fst (getAllRateLimits s) = Returned all /\
    info ∈ all /\ RateLimitInfo.endpoint info = name.
Proof.
  cbv zeta.
  pose proof (runAll_wellKeyed ops _ (fresh_wellKeyed options console w)) as Hwell.
  set (s := runAll host api ops _) in *.
  unfold getRateLimitInfo, getAllRateLimits, bind, get_this, ret. simpl.
  fold (rateLimitsOf s). destruct Hwell as [Hnodup Hall]. split.
  - intros [= Hget]. exists (Map_values (rateLimitsOf s)). split; [reflexivity|].
    apply Map_get_elem_of in Hget. split.
    + unfold Map_values. change info with (snd (name, info)).
      by apply list_elem_of_fmap_2.
    + by destruct (proj1 (Forall_forall _ _) Hall _ Hget) as [Hend _].
  - intros (all & [= <-] & Hin & Hend). f_equal.
    unfold Map_values in Hin. apply list_elem_of_fmap in Hin as ([k v] & -> & Hkv).
    destruct (proj1 (Forall_forall _ _) Hall _ Hkv) as [Hk _]. simpl in *.
    apply elem_of_Map_get; [exact Hnodup|]. congruence.
Qed.

End SequenceFacts.

Lemma rateLimit_queries_agree_witness :
  exists info,
    fst (getRateLimitInfo "getTweet"
           (runAll Fixture.host (Fixture.rejecting Fixture.rateLimited)
              [GetTweet "a"; VerifyCredentials; GetUser "b"] (Fixture.start None 0)))
    = Returned (Some info) /\
    RateLimitInfo.endpoint info = "getTweet".
Proof.
  eexists. split; [reflexivity|].
  pose proof (proj1 (rateLimit_queries_agree Fixture.host
                       (Fixture.rejecting Fixture.rateLimited)
                       {| TwitterClientOptions.config := Fixture.mockConfig;
                          TwitterClientOptions.authMethod := None |}
                       [] 0 [GetTweet "a"; VerifyCredentials; GetUser "b"]
                       "getTweet" _) eq_refl) as (all & _ & _ & Hend).
  exact Hend.
Defined.


(** ** Properties of [main] *)

Section MainFacts.
Context {World : Type}.
Variable api : TwitterApiV2.t World.

Lemma firstMissing_is_first env name :
  firstMissing env = Some name ->
  exists before after,
    requiredVars = (before ++ name :: after)%list /\
    forallb (isSet env) before = true /\
    isSet env name = false.
Proof.
  unfold firstMissing. generalize requiredVars as names.
  induction names as [|v names IH]; simpl; [discriminate|].
  destruct (isSet env v) eqn:Hv; simpl.
  - intros Hfind. destruct (IH Hfind) as (before & after & -> & Hbefore & Hname).
    exists (v :: before), after. simpl. by rewrite Hv.
  - intros [= <-]. by exists [], names.
Qed.

(** When a required variable is missing or empty, [main] prints the banner,
    then on the error stream the message naming the first such variable in
    reading order (the one with every required variable before it usable),
    and exits with code 1; it makes no call into the library. *)
Theorem main_missing_configuration (env : gmap string string) (w : World) :
  let exits name :=
    main api env w =
      (Returned tt,
       Process.mk
         [ (Stdout, [LogString "🚀 X-buzz - X AI Generator"]);
           (Stdout, [LogString ("==========================" +:+ lineFeed)]);
           (Stderr, [LogString "❌ Error:";
                     LogString ("Missing required environment variable: " +:+ name)]) ]
         (Some 1) w) in
  (allRequiredSet env = false ->
   exists before name after,
     requiredVars = (before ++ name :: after)%list /\
     forallb (isSet env) before = true /\
     isSet env name = false /\
     exits name) /\
  (forall before name after,
      requiredVars = (before ++ name :: after)%list ->
      forallb (isSet env) before = true ->
      isSet env name = false ->
      exits name).
Proof.
  cbv zeta.
  assert (forall name, firstMissing env = Some name ->
            main api env w =
              (Returned tt,
               Process.mk
                 [ (Stdout, [LogString "🚀 X-buzz - X AI Generator"]);
                   (Stdout, [LogString ("==========================" +:+ lineFeed)]);
                   (Stderr, [LogString "❌ Error:";
                             LogString ("Missing required environment variable: "
                                        +:+ name)]) ]
                 (Some 1) w)) as Hexits.
  { intros name Hfirst. unfold main, main_try.
    by rewrite (loadConfig_firstMissing env name Hfirst). }
  split.
  - intros Hnot. destruct (allRequiredSet_false env Hnot) as (name & Hfirst & _).
    destruct (firstMissing_is_first env name Hfirst) as (before & after & Hsplit & Hb & Hn).
    exists before, name, after. repeat (split; [assumption|]). by apply Hexits.
  - intros before name after Hsplit Hbefore Hname. apply Hexits.
    by eapply firstMissing_split.
Qed.

(** When the five required variables are usable, [main] never exits with
    code 1, whatever the platform answers.  It probes with [v2.tweets(['1'])]
    through a client built from the bearer token alone, and after the banner
    and two progress lines it prints the success line when the probe
    resolves; when the probe is rejected it prints the thrown value on the
    error stream and then the failure line. *)
Theorem main_with_configuration (env : gmap string string) (w : World) (token : string) :
  allRequiredSet env = true ->
  env !! "TWITTER_BEARER_TOKEN" = Some token ->
  let probe := TwitterApiV2.tweets api (readOnly (TwitterApi_bearer token)) ["1"] w in
  main api env w =
    (Returned tt,
     Process.mk
       ([ (Stdout, [LogString "🚀 X-buzz - X AI Generator"]);
          (Stdout, [LogString ("==========================" +:+ lineFeed)]);
          (Stdout, [LogString "✅ Configuration loaded"]);
          (Stdout, [LogString "📡 Verifying Twitter API credentials..."]) ] ++
        match rejection probe with
        | None => [ (Stdout, [LogString "✅ Twitter API connection successful!"]) ]
        | Some e =>
            [ (Stderr, [LogString "Credential verification failed:"; LogValue e]);
              (Stdout,
               [LogString
                  "❌ Twitter API connection failed. Please check your credentials."]) ]
        end)
       None (snd probe)).
Proof.
  intros Hset Htoken. cbv zeta. unfold main, main_try.
  rewrite (allRequiredSet_loadConfig env Hset). cbv zeta. simpl AppConfig.twitter.
  rewrite verifyCredentials_other by discriminate.
  simpl. rewrite Htoken. simpl.
  by destruct (TwitterApiV2.tweets api _ _ w) as [[r|e] w'].
Qed.
End MainFacts.

Lemma main_missing_configuration_witness :
  let env := delete "TWITTER_BEARER_TOKEN" (delete "TWITTER_API_SECRET" testEnv) in
  isSet env "TWITTER_BEARER_TOKEN" = false /\
  main Fixture.mockApi env 0 =
    (Returned tt,
     Process.mk
       [ (Stdout, [LogString "🚀 X-buzz - X AI Generator"]);
         (Stdout, [LogString ("==========================" +:+ lineFeed)]);
         (Stderr, [LogString "❌ Error:";
                   LogString "Missing required environment variable: TWITTER_API_SECRET"]) ]
       (Some 1) 0).
Proof.
  cbv zeta. split; [vm_compute; reflexivity|].
  apply (proj2 (main_missing_configuration Fixture.mockApi
                  (delete "TWITTER_BEARER_TOKEN" (delete "TWITTER_API_SECRET" testEnv)) 0)
           ["TWITTER_API_KEY"] "TWITTER_API_SECRET"
           ["TWITTER_ACCESS_TOKEN"; "TWITTER_ACCESS_TOKEN_SECRET"; "TWITTER_BEARER_TOKEN"]).
  - reflexivity.
  - vm_compute. reflexivity.
  - vm_compute. reflexivity.
Defined.

Lemma main_with_configuration_witness :
  Process.exitCode (snd (main (Fixture.rejecting Fixture.rateLimited) testEnv 0)) = None.
Proof.
  rewrite (main_with_configuration (Fixture.rejecting Fixture.rateLimited) testEnv 0
             "test-bearer-token").
  - reflexivity.
  - vm_compute. reflexivity.
  - vm_compute. reflexivity.
Defined.

(** ** The console over a sequence of operations *)

Section ConsoleFacts.
Context {World : Type}.
Variable host : Host.t World.
Variable api : TwitterApiV2.t World.
Implicit Types (s : State.t World).

Lemma run_console op s :
  exists lines,
    State.console (snd (run host api op s)) = (State.console s ++ lines)%list /\
    (length lines <= 1)%nat /\
    (lines = [] <-> exists w, clientCall host api op s = Some (None, w)).
Proof.
  pose proof (run_cases host api op s) as H.
  destruct (clientCall host api op s) as [[[e|] w]|].
  - rewrite H. exists [failureLine op e]. split; [|split; [simpl; lia|]].
    + unfold failed, failureLine. by destruct (usesHandleError op).
    + split; [discriminate | intros [w' [=]]].
  - destruct H as (r & s' & -> & _ & Hconsole). exists []. simpl.
    split; [by rewrite app_nil_r|]. split; [simpl; lia|]. split; [by exists w | reflexivity].
  - rewrite H. eexists [_]. split; [reflexivity|]. split; [simpl; lia|].
    split; [discriminate | intros [w' [=]]].
Qed.

(** Operations only ever add to the console, one line at most each: after
    any sequence of operations the console is the old one followed by no more
    lines than there were operations, and by none when every library call
    resolved. *)
Theorem operations_log_at_most_one_line_each (ops : list Operation) (s : State.t World) :
  exists lines,
    State.console (runAll host api ops s) = (State.console s ++ lines)%list /\
    (length lines <= length ops)%nat /\
    (lines <> [] ->
     exists before op after,
       ops = (before ++ op :: after)%list /\
       forall w, clientCall host api op (runAll host api before s) <> Some (None, w)).
Proof.
  revert s. induction ops as [|op ops IH]; intros s; simpl.
  - exists []. split; [by rewrite app_nil_r|]. split; [simpl; lia | congruence].
  - destruct (run_console op s) as (first & Hfirst & Hlen & Hnone).
    destruct (IH (snd (run host api op s))) as (rest & Hrest & Hlen' & Hsome).
    exists (first ++ rest)%list. split; [|split].
    + by rewrite Hrest, Hfirst, app_assoc.
    + rewrite length_app. lia.
    + intros Hlines. destruct first as [|line first].
      * simpl in Hlines. destruct (Hsome Hlines) as (before & op' & after & -> & Hop').
        exists (op :: before), op', after. split; [reflexivity|]. exact Hop'.
      * exists [], op, ops. split; [reflexivity|]. simpl. intros w Hw.
        assert (line :: first = []) as Habs by (apply Hnone; by exists w).
        discriminate.
Qed.
End ConsoleFacts.

Lemma operations_log_at_most_one_line_each_witness :
  exists before op after,
    [GetUser "a"; GetTweet "b"] = (before ++ op :: after)%list /\
    forall w,
      clientCall Fixture.host (Fixture.rejecting Fixture.rateLimited) op
        (runAll Fixture.host (Fixture.rejecting Fixture.rateLimited) before
           (Fixture.start None 0))
      <> Some (None, w).
Proof.
  destruct (operations_log_at_most_one_line_each Fixture.host
              (Fixture.rejecting Fixture.rateLimited)
              [GetUser "a"; GetTweet "b"] (Fixture.start None 0))
    as (lines & Hlines & _ & Hsome).
  apply Hsome. intros ->. vm_compute in Hlines. discriminate.
Defined.
